(** * SLI Recorder: the recording session supervisor

    A shallow embedding of [sli_recorder/recorder.py] together with the parts
    of [log.py], [types.py] and [cli.py] it depends on, and the properties of
    the session life cycle proved about it.

    The Python methods mutate [self] and talk to the operating system.  They
    are embedded as computations of a state-and-exception monad whose state is
    the [Recorder] object plus the chronological trace of every external call
    the method made.  What the operating system answers to a call is decided
    by an environment [Env]: a record of oracles, each a function of the trace
    so far, so that every theorem quantified over [Env] holds for every
    behaviour of the two child processes, the clock and the file system. *)

From Stdlib Require Import ZArith List String Ascii Lia Bool DecimalString.
Import ListNotations.

Open Scope string_scope.
Open Scope list_scope.
Open Scope Z_scope.

(** ** Strings and integers as Python prints them *)

(** [str(n)] and the [%d] conversion of an [int]. *)
Definition str_int (z : Z) : string := NilZero.string_of_int (Z.to_int z).

(** [sep.join(parts)]. *)
Fixpoint join (sep : string) (parts : list string) : string :=
  match parts with
  | [] => EmptyString
  | [s] => s
  | s :: rest => (s ++ sep ++ join sep rest)%string
  end.

(** The format specification [:02d]: the decimal rendering, sign included,
    padded with zeros on the left up to two characters. *)
Definition pad2 (z : Z) : string :=
  let s := str_int z in
  if (String.length s <? 2)%nat then ("0" ++ s)%string else s.

Definition is_space (c : ascii) : bool :=
  match nat_of_ascii c with
  | 9%nat | 10%nat | 11%nat | 12%nat | 13%nat | 32%nat => true
  | _ => false
  end.

Fixpoint lstrip (s : string) : string :=
  match s with
  | EmptyString => EmptyString
  | String c s' => if is_space c then lstrip s' else s
  end.

Fixpoint rev_string (s acc : string) : string :=
  match s with
  | EmptyString => acc
  | String c s' => rev_string s' (String c acc)
  end.

(** [s.strip()] on ASCII white space. *)
Definition strip (s : string) : string :=
  rev_string (lstrip (rev_string (lstrip s) EmptyString)) EmptyString.

(** ** types.py *)

(** A [pathlib.Path], kept as the text [str(path)] gives back. *)
Definition Path := string.
Definition str_path (p : Path) : string := p.

Record RecorderConfig := {
  outdir : Path;
  bitrate : string;
  max_seconds : Z;
  dump_bin : Path;
  ffmpeg_bin : Path;
  overwrite : bool;
  verbose : bool;
  title : option string
}.

(** ** Process handles *)

(** The two child processes, named as the log messages name them. *)
Inductive proc := Ffmpeg | SystemAudioDump.

Definition proc_name (p : proc) : string :=
  match p with
  | Ffmpeg => "ffmpeg"
  | SystemAudioDump => "SystemAudioDump"
  end.

(** One end of a pipe held by the supervisor. *)
Record Pipe := { closed : bool }.

(** A [subprocess.Popen] object: [returncode] is [None] until [poll] or
    [wait] has observed the exit of the child. *)
Record Popen := {
  args : list string;
  returncode : option Z;
  stdout : option Pipe;
  stderr : option Pipe
}.

Definition SIGINT : Z := 2.
Definition SIGTERM : Z := 15.

(** ** Exceptions *)

(** The exceptions that reach the supervisor; all three are subclasses of
    [Exception].  [KeyboardInterrupt] is not among them: the constructor of
    [Recorder] replaces the handler of the interrupt signal. *)
Inductive exn :=
| TimeoutExpired (msg : string)
| RecordingError (msg : string)
| OtherException (msg : string).

(** [str(e)]. *)
Definition str_exn (e : exn) : string :=
  match e with
  | TimeoutExpired m => m
  | RecordingError m => m
  | OtherException m => m
  end.

Inductive res (A : Type) :=
| Ok (a : A)
| Raise (e : exn).
Arguments Ok {A} a.
Arguments Raise {A} e.

(** ** External calls and the environment *)

Inductive level := DEBUG | INFO | WARNING | ERROR.

(** Every call that leaves the supervisor, in the order it is made. *)
Inductive event :=
| EvPopen (p : proc) (argv : list string) (stdin : option proc)
| EvPoll (p : proc)
| EvWait (p : proc) (timeout : option Z)
| EvTerminate (p : proc)
| EvKill (p : proc)
| EvSendSignal (p : proc) (sig : Z)
| EvStdoutClose (p : proc)
| EvStderrRead (p : proc)
| EvSleep (ms : Z)
| EvTime
| EvExists (path : Path)
| EvStat (path : Path)
| EvThreadStart
| EvSignal (sig : Z)
| EvLog (lvl : level) (msg : string).

(** The answers of the world.  Each oracle receives the trace of the calls
    made before the one it answers.  Time is read in milliseconds. *)
Record Env := {
  os_popen : list event -> proc -> list string -> option exn;
  os_poll : list event -> proc -> option Z;
  os_wait : list event -> proc -> option Z -> res Z;
  os_terminate : list event -> proc -> option exn;
  os_kill : list event -> proc -> option exn;
  os_send_signal : list event -> proc -> Z -> option exn;
  os_stderr_read : list event -> proc -> string;
  os_time : list event -> Z;
  os_exists : list event -> Path -> bool;
  os_st_size : list event -> Path -> res Z;
  os_thread_start : list event -> option exn;
  (** the text of [max_seconds / 3600] under the float format [.1f] *)
  fmt_hours : Z -> string
}.

(** ** The Recorder object *)

Record Recorder := {
  config : RecorderConfig;
  output_path : Path;
  _dump_process : option Popen;
  _ffmpeg_process : option Popen;
  _start_time : option Z;
  _stop_requested : bool;
  _status_thread : option unit
}.

Definition handle (p : proc) (r : Recorder) : option Popen :=
  match p with
  | Ffmpeg => _ffmpeg_process r
  | SystemAudioDump => _dump_process r
  end.

Definition set_handle (p : proc) (h : option Popen) (r : Recorder) : Recorder :=
  match p with
  | Ffmpeg =>
      {| config := config r; output_path := output_path r;
         _dump_process := _dump_process r; _ffmpeg_process := h;
         _start_time := _start_time r; _stop_requested := _stop_requested r;
         _status_thread := _status_thread r |}
  | SystemAudioDump =>
      {| config := config r; output_path := output_path r;
         _dump_process := h; _ffmpeg_process := _ffmpeg_process r;
         _start_time := _start_time r; _stop_requested := _stop_requested r;
         _status_thread := _status_thread r |}
  end.

Definition set_start_time (t : option Z) (r : Recorder) : Recorder :=
  {| config := config r; output_path := output_path r;
     _dump_process := _dump_process r; _ffmpeg_process := _ffmpeg_process r;
     _start_time := t; _stop_requested := _stop_requested r;
     _status_thread := _status_thread r |}.

Definition set_stop_requested (b : bool) (r : Recorder) : Recorder :=
  {| config := config r; output_path := output_path r;
     _dump_process := _dump_process r; _ffmpeg_process := _ffmpeg_process r;
     _start_time := _start_time r; _stop_requested := b;
     _status_thread := _status_thread r |}.

Definition set_status_thread (t : option unit) (r : Recorder) : Recorder :=
  {| config := config r; output_path := output_path r;
     _dump_process := _dump_process r; _ffmpeg_process := _ffmpeg_process r;
     _start_time := _start_time r; _stop_requested := _stop_requested r;
     _status_thread := t |}.

Definition with_returncode (c : option Z) (h : Popen) : Popen :=
  {| args := args h; returncode := c; stdout := stdout h; stderr := stderr h |}.

Definition with_stdout (s : option Pipe) (h : Popen) : Popen :=
  {| args := args h; returncode := returncode h; stdout := s; stderr := stderr h |}.

(** ** The monad of a method body *)

Record St := { self : Recorder; trace : list event }.

Definition M (A : Type) : Type := St -> res A * St.

Definition ret {A} (a : A) : M A := fun st => (Ok a, st).

Definition bind {A B} (m : M A) (k : A -> M B) : M B :=
  fun st =>
    match m st with
    | (Ok a, st') => k a st'
    | (Raise e, st') => (Raise e, st')
    end.

Definition raise {A} (e : exn) : M A := fun st => (Raise e, st).

(** [try: m  except ...: h e]; a handler that does not match re-raises. *)
Definition try_except {A} (m : M A) (h : exn -> M A) : M A :=
  fun st =>
    match m st with
    | (Ok a, st') => (Ok a, st')
    | (Raise e, st') => h e st'
    end.

Declare Scope monad_scope.
Delimit Scope monad_scope with monad.
Notation "x <- m ;; k" := (bind m (fun x => k))
  (at level 61, m at next level, right associativity) : monad_scope.
Notation "m ;; k" := (bind m (fun _ => k))
  (at level 61, right associativity) : monad_scope.
Open Scope monad_scope.

Definition get_self : M Recorder := fun st => (Ok (self st), st).

Definition modify_self (f : Recorder -> Recorder) : M unit :=
  fun st => (Ok tt, {| self := f (self st); trace := trace st |}).

Definition emit (ev : event) : M unit :=
  fun st => (Ok tt, {| self := self st; trace := trace st ++ [ev] |}).

Definition get_trace : M (list event) := fun st => (Ok (trace st), st).

Definition lift_res {A} (r : res A) : M A := fun st => (r, st).

Definition lift_err (o : option exn) : M unit :=
  match o with
  | None => ret tt
  | Some e => raise e
  end.

(** [True] when a Python object reference is [None]. *)
Definition is_None {A} (o : option A) : bool :=
  match o with
  | None => true
  | Some _ => false
  end.

(** ** log.py *)

(** [format_elapsed_time(seconds)]: [divmod] is floor division, which on a
    positive divisor is [Z.div] and [Z.modulo]. *)
Definition format_elapsed_time (seconds : Z) : string :=
  let hours := seconds / 3600 in
  let remainder := seconds mod 3600 in
  let minutes := remainder / 60 in
  let secs := remainder mod 60 in
  (pad2 hours ++ ":" ++ pad2 minutes ++ ":" ++ pad2 secs)%string.

Definition logger_log (lvl : level) (msg : string) : M unit := emit (EvLog lvl msg).

Definition log_command (cmd : list string) : M unit :=
  logger_log DEBUG ("Executing: " ++ join " " cmd)%string.

Definition log_process_result (process_name : string) (return_code : Z)
    (stderr_text : option string) : M unit :=
  if return_code =? 0 then
    logger_log DEBUG (process_name ++ " completed successfully")%string
  else
    logger_log ERROR
      (process_name ++ " failed with return code " ++ str_int return_code)%string;;
    match stderr_text with
    | Some s =>
        if (String.length s =? 0)%nat then ret tt
        else logger_log ERROR (process_name ++ " stderr: " ++ strip s)%string
    | None => ret tt
    end.

(** ** The encoder command line, as the two modules build it *)

(** The list [ffmpeg_cmd] of [Recorder._start_ffmpeg_process]. *)
Definition recorder_ffmpeg_cmd (cfg : RecorderConfig) (out : Path) : list string :=
  [ str_path (ffmpeg_bin cfg);
    "-hide_banner";
    "-loglevel"; "error";
    "-f"; "s16le";
    "-ar"; "24000";
    "-ac"; "2";
    "-i"; "pipe:0";
    "-c:a"; "libmp3lame";
    "-b:a"; bitrate cfg;
    "-vn";
    "-sn";
    "-t"; str_int (max_seconds cfg);
    str_path out ].


(** [int(x)] of a difference of two clock readings: the whole seconds,
    truncated towards zero. *)
Definition python_int (ms : Z) : Z := Z.quot ms 1000.

(** A true division [a / b] of two integers gives the float nearest to the
    quotient and raises [OverflowError] when that float would reach
    [2^1024]: when the quotient is at least [2^1024 - 2^970]. *)
Definition float_limit : Z := 2 ^ 1024 - 2 ^ 970.

Definition true_div_overflows (a b : Z) : bool := float_limit * b <=? Z.abs a.

(** [x or 0] on an optional number. *)
Definition or_0 (o : option Z) : Z :=
  match o with
  | Some z => z
  | None => 0
  end.

(** [str(process.returncode)]. *)
Definition str_returncode (o : option Z) : string :=
  match o with
  | Some c => str_int c
  | None => "None"
  end.

(** The text of the periodic status line; the characters after "recording"
    are those of recorder.py, byte for byte. *)
Definition status_line (elapsed : Z) : string :=
  (format_elapsed_time elapsed ++ " recordingâ€¦ press Ctrl+C to stop")%string.

Fixpoint for_each {A} (l : list A) (body : A -> M unit) : M unit :=
  match l with
  | [] => ret tt
  | a :: l' => body a;; for_each l' body
  end.

Definition fresh_popen (cmd : list string) : Popen :=
  {| args := cmd; returncode := None;
     stdout := Some {| closed := false |};
     stderr := Some {| closed := false |} |}.

Definition set_returncode (p : proc) (c : Z) (r : Recorder) : Recorder :=
  set_handle p (option_map (with_returncode (Some c)) (handle p r)) r.

Definition close_stdout (p : proc) (r : Recorder) : Recorder :=
  set_handle p
    (option_map
       (fun h => with_stdout (option_map (fun _ => {| closed := true |}) (stdout h)) h)
       (handle p r)) r.

(** The fields [__init__] assigns. *)
Definition new_recorder (cfg : RecorderConfig) (out : Path) : Recorder :=
  {| config := cfg; output_path := out;
     _dump_process := None; _ffmpeg_process := None;
     _start_time := None; _stop_requested := false;
     _status_thread := None |}.

(** [Recorder.is_running]. *)
Definition is_running (r : Recorder) : bool :=
  negb (is_None (_ffmpeg_process r)) &&
  match _ffmpeg_process r with
  | Some h => is_None (returncode h)
  | None => false
  end.

Section Methods.

Variable E : Env.

(** *** The library calls *)

Definition time_time : M Z :=
  tr <- get_trace;; emit EvTime;; ret (os_time E tr).

Definition time_sleep (ms : Z) : M unit := emit (EvSleep ms).

(** [Popen(cmd, stdin=..., stdout=PIPE, stderr=PIPE)], assigned to the field
    of [p] when the call returns. *)
Definition Popen_new (p : proc) (cmd : list string) (stdin : option proc) : M unit :=
  tr <- get_trace;;
  emit (EvPopen p cmd stdin);;
  lift_err (os_popen E tr p cmd);;
  modify_self (set_handle p (Some (fresh_popen cmd))).

Definition Popen_poll (p : proc) : M (option Z) :=
  tr <- get_trace;;
  emit (EvPoll p);;
  match os_poll E tr p with
  | Some c => modify_self (set_returncode p c);; ret (Some c)
  | None => ret None
  end.

Definition Popen_wait (p : proc) (timeout : option Z) : M Z :=
  tr <- get_trace;;
  emit (EvWait p timeout);;
  c <- lift_res (os_wait E tr p timeout);;
  modify_self (set_returncode p c);;
  ret c.

(** [Popen.terminate()] and [Popen.kill()] are [send_signal] with the
    terminating and the killing signal, so they too poll the child first.
    Every caller in this program waits for the child right after either
    call, and that wait stores the exit code the poll would have stored;
    the two calls are therefore modelled by their own outcome alone. *)
Definition Popen_terminate (p : proc) : M unit :=
  tr <- get_trace;; emit (EvTerminate p);; lift_err (os_terminate E tr p).

Definition Popen_kill (p : proc) : M unit :=
  tr <- get_trace;; emit (EvKill p);; lift_err (os_kill E tr p).

(** [Popen.send_signal(sig)] polls the child before it signals.  The answer
    of [os_send_signal] is for the call as a whole: [Some e] when it raises
    (its poll then found the child alive and the signal could not be sent).
    When it does not raise, [os_poll] tells what its poll found: an exit
    code, which is stored in [returncode] with no signal sent, or a child
    still alive, which is signalled. *)
Definition Popen_send_signal (p : proc) (sig : Z) : M unit :=
  tr <- get_trace;;
  emit (EvSendSignal p sig);;
  lift_err (os_send_signal E tr p sig);;
  match os_poll E tr p with
  | Some c => modify_self (set_returncode p c)
  | None => ret tt
  end.

Definition stdout_close (p : proc) : M unit :=
  emit (EvStdoutClose p);; modify_self (close_stdout p).

Definition stderr_read (p : proc) : M string :=
  tr <- get_trace;; emit (EvStderrRead p);; ret (os_stderr_read E tr p).

Definition path_exists (path : Path) : M bool :=
  tr <- get_trace;; emit (EvExists path);; ret (os_exists E tr path).

Definition path_st_size (path : Path) : M Z :=
  tr <- get_trace;; emit (EvStat path);; lift_res (os_st_size E tr path).

Definition Thread_start : M unit :=
  tr <- get_trace;; emit EvThreadStart;; lift_err (os_thread_start E tr).

(** The captured error text of a child that died at once. *)
Definition drain_stderr (p : proc) : M string :=
  r <- get_self;;
  match handle p r with
  | Some h =>
      match stderr h with
      | Some _ => stderr_read p
      | None => ret EmptyString
      end
  | None => ret EmptyString
  end.

Definition returncode_of (p : proc) (r : Recorder) : option Z :=
  match handle p r with
  | Some h => returncode h
  | None => None
  end.

(** *** recorder.py *)

(** [Recorder.__init__]: the fields, and the two handler registrations. *)
Definition __init__ (cfg : RecorderConfig) (out : Path) (tr : list event) : St :=
  {| self := new_recorder cfg out;
     trace := tr ++ [EvSignal SIGINT; EvSignal SIGTERM] |}.

(** One turn of the loop of [Recorder._cleanup_processes]. *)
Definition cleanup_process (p : proc) : M unit :=
  r <- get_self;;
  match handle p r with
  | Some h =>
      if is_None (returncode h) then
        logger_log DEBUG ("Terminating " ++ proc_name p)%string;;
        try_except
          (Popen_terminate p;;
           _ <- Popen_wait p (Some 5);;
           ret tt)
          (fun e =>
             match e with
             | TimeoutExpired _ =>
                 logger_log DEBUG ("Killing " ++ proc_name p ++ " after timeout")%string;;
                 Popen_kill p;;
                 _ <- Popen_wait p None;;
                 ret tt
             | _ =>
                 logger_log DEBUG
                   ("Error cleaning up " ++ proc_name p ++ ": " ++ str_exn e)%string
             end)
      else ret tt
  | None => ret tt
  end.

Definition _cleanup_processes : M unit :=
  for_each [Ffmpeg; SystemAudioDump] cleanup_process.

Definition _start_dump_process : M unit :=
  r <- get_self;;
  let dump_cmd := [str_path (dump_bin (config r))] in
  log_command dump_cmd;;
  Popen_new SystemAudioDump dump_cmd None;;
  time_sleep 100;;
  polled <- Popen_poll SystemAudioDump;;
  match polled with
  | Some _ =>
      text <- drain_stderr SystemAudioDump;;
      r' <- get_self;;
      raise (RecordingError
               ("SystemAudioDump failed to start (exit code "
                ++ str_returncode (returncode_of SystemAudioDump r') ++ "): " ++ text)%string)
  | None => ret tt
  end.

Definition dump_stdout_available (r : Recorder) : bool :=
  match _dump_process r with
  | Some d => negb (is_None (stdout d))
  | None => false
  end.

Definition _start_ffmpeg_process : M unit :=
  r <- get_self;;
  if negb (dump_stdout_available r) then
    raise (RecordingError "Dump process not available")
  else
    let ffmpeg_cmd := recorder_ffmpeg_cmd (config r) (output_path r) in
    log_command ffmpeg_cmd;;
    Popen_new Ffmpeg ffmpeg_cmd (Some SystemAudioDump);;
    stdout_close SystemAudioDump;;
    time_sleep 100;;
    polled <- Popen_poll Ffmpeg;;
    match polled with
    | Some _ =>
        text <- drain_stderr Ffmpeg;;
        r' <- get_self;;
        raise (RecordingError
                 ("ffmpeg failed to start (exit code "
                  ++ str_returncode (returncode_of Ffmpeg r') ++ "): " ++ text)%string)
    | None => ret tt
    end.

(** The division [max_seconds / 3600], evaluated as an argument of the
    second line of [start], outside its [try]. *)
Definition hours_of (max_seconds : Z) : M unit :=
  if true_div_overflows max_seconds 3600 then
    raise (OtherException "integer division result too large for a float")
  else ret tt.

Definition start : M unit :=
  r <- get_self;;
  logger_log INFO ("Starting recording to: " ++ str_path (output_path r))%string;;
  hours_of (max_seconds (config r));;
  logger_log INFO
    ("Recording will auto-stop after " ++ str_int (max_seconds (config r))
     ++ " seconds (" ++ fmt_hours E (max_seconds (config r)) ++ " hours)")%string;;
  logger_log INFO "Press Ctrl+C to stop recording early";;
  try_except
    (_start_dump_process;;
     _start_ffmpeg_process;;
     now <- time_time;;
     modify_self (set_start_time (Some now));;
     if negb (verbose (config r)) then
       modify_self (set_status_thread (Some tt));;
       Thread_start
     else ret tt)
    (fun e =>
       _cleanup_processes;;
       raise (RecordingError ("Failed to start recording: " ++ str_exn e)%string)).

(** Lines 80 to 87 of [wait]: reaping the capture process. *)
Definition reap_dump : M unit :=
  r <- get_self;;
  match _dump_process r with
  | Some d =>
      if is_None (returncode d) then
        Popen_terminate SystemAudioDump;;
        try_except
          (_ <- Popen_wait SystemAudioDump (Some 5);; ret tt)
          (fun e =>
             match e with
             | TimeoutExpired _ =>
                 logger_log DEBUG "SystemAudioDump did not terminate gracefully, killing";;
                 Popen_kill SystemAudioDump;;
                 _ <- Popen_wait SystemAudioDump None;;
                 ret tt
             | _ => raise e
             end)
      else ret tt
  | None => ret tt
  end.

(** Lines 89 to 101 of [wait]: the outcome of both processes and the reason
    of the stop. *)
Definition log_outcome (ffmpeg_code : Z) : M unit :=
  r <- get_self;;
  match _dump_process r with
  | Some d => log_process_result "SystemAudioDump" (or_0 (returncode d)) None
  | None => ret tt
  end;;
  log_process_result "ffmpeg" ffmpeg_code None;;
  now <- time_time;;
  r' <- get_self;;
  let elapsed := python_int (now - or_0 (_start_time r')) in
  if _stop_requested r' then
    logger_log INFO ("Recording stopped by user after " ++ format_elapsed_time elapsed)%string
  else
    logger_log INFO ("Recording completed after " ++ format_elapsed_time elapsed)%string.

(** Lines 103 to 110 of [wait]: the check of the output file. *)
Definition check_artifact (ffmpeg_code : Z) : M Z :=
  r <- get_self;;
  present <- path_exists (output_path r);;
  if negb present then raise (RecordingError "Output file was not created")
  else
    file_size <- path_st_size (output_path r);;
    logger_log INFO
      ("Saved " ++ str_int file_size ++ " bytes to: " ++ str_path (output_path r))%string;;
    ret ffmpeg_code.

(** The body of the [try] of [wait]. *)
Definition wait_body : M Z :=
  ffmpeg_code <- Popen_wait Ffmpeg None;;
  reap_dump;;
  log_outcome ffmpeg_code;;
  check_artifact ffmpeg_code.

(** The [except] clause of [wait]. *)
Definition wait_except (e : exn) : M Z :=
  _cleanup_processes;;
  raise (RecordingError ("Recording failed: " ++ str_exn e)%string).

Definition wait : M Z :=
  r <- get_self;;
  if is_None (_ffmpeg_process r) then raise (RecordingError "Recording not started")
  else try_except wait_body wait_except.

Definition stop_gracefully : M unit :=
  modify_self (set_stop_requested true);;
  r <- get_self;;
  match _ffmpeg_process r with
  | Some h =>
      if is_None (returncode h) then
        logger_log DEBUG "Sending SIGINT to ffmpeg for graceful shutdown";;
        Popen_send_signal Ffmpeg SIGINT
      else ret tt
  | None => ret tt
  end.

Definition _signal_handler (signum : Z) : M unit :=
  logger_log DEBUG ("Received signal " ++ str_int signum ++ ", stopping recording")%string;;
  stop_gracefully.

(** One pass through the body of the loop of [_status_reporter]. *)
Definition status_reporter_body : M unit :=
  now <- time_time;;
  r <- get_self;;
  match _start_time r with
  | None => raise (OtherException "unsupported operand type(s) for -: 'float' and 'NoneType'")
  | Some t0 =>
      let elapsed := python_int (now - t0) in
      (if (0 <? elapsed) && (elapsed mod 30 =? 0) then
         logger_log INFO (status_line elapsed)
       else ret tt);;
      time_sleep 1000
  end.

(** The loop of [_status_reporter].  The thread shares [self] with the main
    thread and the signal handlers: [others] lists, pass by pass, what they do
    to the object while this thread sleeps.  The result is [true] when the
    loop has exited and [false] when [others] ran out with the loop still
    going. *)
Fixpoint status_reporter_loop (others : list (Recorder -> Recorder)) : M bool :=
  r <- get_self;;
  if is_running r && negb (_stop_requested r) then
    match others with
    | [] => ret false
    | f :: others' =>
        status_reporter_body;;
        modify_self f;;
        status_reporter_loop others'
    end
  else ret true.

Definition _status_reporter (others : list (Recorder -> Recorder)) : M bool :=
  r <- get_self;;
  match _start_time r with
  | None => ret true
  | Some t0 => if t0 =? 0 then ret true else status_reporter_loop others
  end.

(** *** cli.py *)


End Methods.

(** ** Reading a trace *)

(** The command lines given to [Popen] for the encoder, oldest first. *)
Fixpoint encoder_spawns (tr : list event) : list (list string * option proc) :=
  match tr with
  | [] => []
  | EvPopen Ffmpeg argv stdin :: tr' => (argv, stdin) :: encoder_spawns tr'
  | _ :: tr' => encoder_spawns tr'
  end.

(** The signals sent to the encoder, oldest first. *)
Fixpoint encoder_signals (tr : list event) : list Z :=
  match tr with
  | [] => []
  | EvSendSignal Ffmpeg sig :: tr' => sig :: encoder_signals tr'
  | _ :: tr' => encoder_signals tr'
  end.


(** The number of completed sleeps. *)
Fixpoint sleeps (tr : list event) : nat :=
  match tr with
  | [] => 0%nat
  | EvSleep _ :: tr' => S (sleeps tr')
  | _ :: tr' => sleeps tr'
  end.

(** Whether a call touches a child process: spawn, poll, wait, terminate,
    kill or signal. *)
Definition is_process_operation (ev : event) : bool :=
  match ev with
  | EvPopen _ _ _ | EvPoll _ | EvWait _ _ | EvTerminate _ | EvKill _
  | EvSendSignal _ _ => true
  | _ => false
  end.

(** Whether every close of the capture stream in [tr] comes after a liveness
    poll of the encoder; [polled] tells whether one was already seen. *)
Fixpoint close_follows_poll (polled : bool) (tr : list event) : bool :=
  match tr with
  | [] => true
  | EvPoll Ffmpeg :: tr' => close_follows_poll true tr'
  | EvStdoutClose SystemAudioDump :: tr' => polled && close_follows_poll polled tr'
  | _ :: tr' => close_follows_poll polled tr'
  end.

(** The capture process has been started and has not been seen to exit. *)
Definition capture_running (r : Recorder) : Prop :=
  exists d, _dump_process r = Some d /\ returncode d = None.

(** No encoder handle, or a handle whose exit has been observed. *)
Definition encoder_absent_or_exited (r : Recorder) : Prop :=
  _ffmpeg_process r = None \/
  exists h c, _ffmpeg_process r = Some h /\ returncode h = Some c.

(** The handle of [p] is missing, or the exit of [p] has been observed. *)
Definition settled (p : proc) (r : Recorder) : Prop :=
  handle p r = None \/ returncode_of p r <> None.


(** Zero padding, in the words of the specification: a field below one
    hundred is written as its tens digit followed by its units digit. *)
Definition digit (n : Z) : ascii := ascii_of_nat (48 + Z.to_nat n).

Definition two_digits (n : Z) : string :=
  String (digit (n / 10)) (String (digit (n mod 10)) EmptyString).









(** Two calls of [stop_gracefully] in succession, and one call. *)
Definition stop_once (E : Env) (st : St) : St := snd (stop_gracefully E st).
Definition stop_twice (E : Env) (st : St) : St := stop_once E (stop_once E st).

(** The operations of a Recorder. *)
Inductive operation :=
| OpStart
| OpWait
| OpStopGracefully
| OpSignalHandler (signum : Z)
| OpCleanupProcesses
| OpStatusReporter (turns : nat).

Definition run_operation (E : Env) (op : operation) (st : St) : St :=
  match op with
  | OpStart => snd (start E st)
  | OpWait => snd (wait E st)
  | OpStopGracefully => snd (stop_gracefully E st)
  | OpSignalHandler signum => snd (_signal_handler E signum st)
  | OpCleanupProcesses => snd (_cleanup_processes E st)
  | OpStatusReporter turns => snd (_status_reporter E (repeat (fun r => r) turns) st)
  end.

(** A computation that only adds calls to the trace. *)
Definition extends_trace {A} (m : M A) : Prop :=
  forall st, exists evs, trace (snd (m st)) = trace st ++ evs.

(** A computation that never takes back a stop request. *)
Definition keeps_stop {A} (m : M A) : Prop :=
  forall st, _stop_requested (self st) = true ->
             _stop_requested (self (snd (m st))) = true.

(** ** Sample sessions *)

Definition sample_config : RecorderConfig :=
  {| outdir := "recordings"; bitrate := "160k"; max_seconds := 9000;
     dump_bin := "/usr/local/bin/SystemAudioDump"; ffmpeg_bin := "ffmpeg";
     overwrite := false; verbose := false; title := None |}.

(** A configuration whose duration, counted in hours, is beyond every
    float. *)
Definition endless_config : RecorderConfig :=
  {| outdir := "recordings"; bitrate := "160k"; max_seconds := 3600 * 2 ^ 1024;
     dump_bin := "/usr/local/bin/SystemAudioDump"; ffmpeg_bin := "ffmpeg";
     overwrite := false; verbose := false; title := None |}.

Definition sample_path : Path := "recordings/focus-music.mp3".

(** Every call succeeds: children stay alive when polled, exit with code 0
    when waited for, the output file is there, and each sleep of the status
    reporter lasts one second. *)
Definition calm_env : Env :=
  {| os_popen := fun _ _ _ => None;
     os_poll := fun _ _ => None;
     os_wait := fun _ _ _ => Ok 0;
     os_terminate := fun _ _ => None;
     os_kill := fun _ _ => None;
     os_send_signal := fun _ _ _ => None;
     os_stderr_read := fun _ _ => EmptyString;
     os_time := fun tr => 1000 * Z.of_nat (sleeps tr);
     os_exists := fun _ _ => true;
     os_st_size := fun _ _ => Ok 4096;
     os_thread_start := fun _ => None;
     fmt_hours := fun _ => "2.5" |}.

(** As [calm_env], but the capture process ignores the termination request
    for more than five seconds. *)
Definition stubborn_env : Env :=
  {| os_popen := fun _ _ _ => None;
     os_poll := fun _ _ => None;
     os_wait := fun _ p timeout =>
       match p, timeout with
       | SystemAudioDump, Some _ => Raise (TimeoutExpired "timed out after 5 seconds")
       | _, _ => Ok 0
       end;
     os_terminate := fun _ _ => None;
     os_kill := fun _ _ => None;
     os_send_signal := fun _ _ _ => None;
     os_stderr_read := fun _ _ => EmptyString;
     os_time := fun tr => 1000 * Z.of_nat (sleeps tr);
     os_exists := fun _ _ => true;
     os_st_size := fun _ _ => Ok 4096;
     os_thread_start := fun _ => None;
     fmt_hours := fun _ => "2.5" |}.

(** As [calm_env], but terminating the capture process is refused. *)
Definition refusing_env : Env :=
  {| os_popen := fun _ _ _ => None;
     os_poll := fun _ _ => None;
     os_wait := fun _ _ _ => Ok 0;
     os_terminate := fun _ p =>
       match p with
       | SystemAudioDump => Some (OtherException "[Errno 1] Operation not permitted")
       | Ffmpeg => None
       end;
     os_kill := fun _ _ => None;
     os_send_signal := fun _ _ _ => None;
     os_stderr_read := fun _ _ => EmptyString;
     os_time := fun tr => 1000 * Z.of_nat (sleeps tr);
     os_exists := fun _ _ => true;
     os_st_size := fun _ _ => Ok 4096;
     os_thread_start := fun _ => None;
     fmt_hours := fun _ => "2.5" |}.

(** A Recorder fresh from its constructor. *)
Definition fresh_state : St := __init__ sample_config sample_path [].

(** The session after a successful [start] in the calm environment. *)
Definition started_state : St := snd (start calm_env fresh_state).

(** The session after [_start_dump_process] only. *)
Definition capture_started_state : St := snd (_start_dump_process calm_env fresh_state).

(** The started session once [wait] has returned. *)
Definition finished_state : St := snd (wait calm_env started_state).




(** ** Sound process handles and further sessions *)

(** The handle of [p] never fails other than by the expiry of the 5-second
    wait. *)
Definition process_handle_sound (E : Env) (p : proc) : Prop :=
  (forall tr, os_terminate E tr p = None)
  /\ (forall tr, os_kill E tr p = None)
  /\ (forall tr, exists c, os_wait E tr p None = Ok c)
  /\ (forall tr,
        (exists c, os_wait E tr p (Some 5) = Ok c)
        \/ (exists m, os_wait E tr p (Some 5) = Raise (TimeoutExpired m))).

(** As [calm_env], but the capture process is found dead, with exit code 1,
    by the poll that follows its launch. *)
Definition dead_capture_env : Env :=
  {| os_popen := fun _ _ _ => None;
     os_poll := fun _ p =>
       match p with
       | SystemAudioDump => Some 1
       | Ffmpeg => None
       end;
     os_wait := fun _ _ _ => Ok 0;
     os_terminate := fun _ _ => None;
     os_kill := fun _ _ => None;
     os_send_signal := fun _ _ _ => None;
     os_stderr_read := fun _ _ => "Screen Recording permission required";
     os_time := fun tr => 1000 * Z.of_nat (sleeps tr);
     os_exists := fun _ _ => true;
     os_st_size := fun _ _ => Ok 4096;
     os_thread_start := fun _ => None;
     fmt_hours := fun _ => "2.5" |}.

(** As [calm_env], but the encoder is found dead, with exit code 1, by the
    poll that follows its launch. *)
Definition dead_encoder_env : Env :=
  {| os_popen := fun _ _ _ => None;
     os_poll := fun _ p =>
       match p with
       | SystemAudioDump => None
       | Ffmpeg => Some 1
       end;
     os_wait := fun _ _ _ => Ok 0;
     os_terminate := fun _ _ => None;
     os_kill := fun _ _ => None;
     os_send_signal := fun _ _ _ => None;
     os_stderr_read := fun _ _ => "Unknown encoder 'libmp3lame'";
     os_time := fun tr => 1000 * Z.of_nat (sleeps tr);
     os_exists := fun _ _ => true;
     os_st_size := fun _ _ => Ok 4096;
     os_thread_start := fun _ => None;
     fmt_hours := fun _ => "2.5" |}.

(** As [calm_env], but the encoder ignores the termination request and
    killing it is refused. *)
Definition unkillable_encoder_env : Env :=
  {| os_popen := fun _ _ _ => None;
     os_poll := fun _ _ => None;
     os_wait := fun _ p timeout =>
       match p, timeout with
       | Ffmpeg, Some _ => Raise (TimeoutExpired "timed out after 5 seconds")
       | _, _ => Ok 0
       end;
     os_terminate := fun _ _ => None;
     os_kill := fun _ p =>
       match p with
       | Ffmpeg => Some (OtherException "[Errno 1] Operation not permitted")
       | SystemAudioDump => None
       end;
     os_send_signal := fun _ _ _ => None;
     os_stderr_read := fun _ _ => EmptyString;
     os_time := fun tr => 1000 * Z.of_nat (sleeps tr);
     os_exists := fun _ _ => true;
     os_st_size := fun _ _ => Ok 4096;
     os_thread_start := fun _ => None;
     fmt_hours := fun _ => "2.5" |}.

(** As [calm_env], but signalling the encoder is refused. *)
Definition unsignalable_env : Env :=
  {| os_popen := fun _ _ _ => None;
     os_poll := fun _ _ => None;
     os_wait := fun _ _ _ => Ok 0;
     os_terminate := fun _ _ => None;
     os_kill := fun _ _ => None;
     os_send_signal := fun _ _ _ => Some (OtherException "[Errno 1] Operation not permitted");
     os_stderr_read := fun _ _ => EmptyString;
     os_time := fun tr => 1000 * Z.of_nat (sleeps tr);
     os_exists := fun _ _ => true;
     os_st_size := fun _ _ => Ok 4096;
     os_thread_start := fun _ => None;
     fmt_hours := fun _ => "2.5" |}.

(** ** Reading an elapsed time back *)

Definition digit_value (c : ascii) : Z := Z.of_nat (nat_of_ascii c) - 48.

(** The seconds written as eight characters [hh:mm:ss]. *)
Definition decode_hms (s : string) : option Z :=
  match s with
  | String h1 (String h2 (String _ (String m1 (String m2 (String _
      (String s1 (String s2 EmptyString))))))) =>
      Some ((10 * digit_value h1 + digit_value h2) * 3600
            + (10 * digit_value m1 + digit_value m2) * 60
            + (10 * digit_value s1 + digit_value s2))
  | _ => None
  end.

(** ** paths.py *)

(** Titles are modelled as ASCII text: the character classes below are those
    of Python's [re] and [str] on code points under 128, and the properties
    of [sanitize_title] are stated for titles made of such characters. *)
Definition in_range (lo hi : nat) (c : ascii) : bool :=
  ((lo <=? nat_of_ascii c) && (nat_of_ascii c <=? hi))%nat.

(** The class [\w]: letters, digits and the underscore. *)
Definition is_word_char (c : ascii) : bool :=
  in_range 48 57 c || in_range 65 90 c || in_range 97 122 c
  || (nat_of_ascii c =? 95)%nat.

(** The class [\s]: tab to carriage return, the four separators 28 to 31, and
    the space. *)
Definition is_whitespace_char (c : ascii) : bool :=
  in_range 9 13 c || in_range 28 32 c.

Definition is_hyphen (c : ascii) : bool := (nat_of_ascii c =? 45)%nat.

Fixpoint string_forall (P : ascii -> bool) (s : string) : bool :=
  match s with
  | EmptyString => true
  | String c s' => P c && string_forall P s'
  end.

Definition ascii_only (s : string) : bool :=
  string_forall (fun c => (nat_of_ascii c <? 128)%nat) s.

(** [re.sub(r"[^\w\s-]", "", title)]: every character that is not a word
    character, white space or a hyphen is dropped. *)
Fixpoint remove_unsafe (s : string) : string :=
  match s with
  | EmptyString => EmptyString
  | String c s' =>
      if is_word_char c || is_whitespace_char c || is_hyphen c
      then String c (remove_unsafe s')
      else remove_unsafe s'
  end.

(** [re.sub(r"[-\s]+", "-", s)]: every maximal run of hyphens and white space
    becomes one hyphen; [in_run] tells that the run has begun. *)
Fixpoint collapse_separators (in_run : bool) (s : string) : string :=
  match s with
  | EmptyString => EmptyString
  | String c s' =>
      if is_hyphen c || is_whitespace_char c then
        if in_run then collapse_separators true s'
        else String "-" (collapse_separators true s')
      else String c (collapse_separators false s')
  end.

Fixpoint lstrip_hyphens (s : string) : string :=
  match s with
  | EmptyString => EmptyString
  | String c s' => if is_hyphen c then lstrip_hyphens s' else s
  end.

Fixpoint rstrip_hyphens (s : string) : string :=
  match s with
  | EmptyString => EmptyString
  | String c s' =>
      match rstrip_hyphens s' with
      | EmptyString => if is_hyphen c then EmptyString else String c EmptyString
      | r => String c r
      end
  end.

(** [s.strip("-")]. *)
Definition strip_hyphens (s : string) : string := rstrip_hyphens (lstrip_hyphens s).

Definition lower_char (c : ascii) : ascii :=
  if in_range 65 90 c then ascii_of_nat (nat_of_ascii c + 32) else c.

(** [s.lower()]. *)
Fixpoint lower (s : string) : string :=
  match s with
  | EmptyString => EmptyString
  | String c s' => String (lower_char c) (lower s')
  end.

Definition sanitize_title (title : string) : string :=
  let sanitized := remove_unsafe title in
  let sanitized := collapse_separators false sanitized in
  lower (strip_hyphens sanitized).

(** [bool(s)] of a string. *)
Definition nonempty (s : string) : bool :=
  match s with
  | EmptyString => false
  | String _ _ => true
  end.

(** [build_output_filename(title)]; [timestamp] is the text of the current
    time under the format [%Y%m%d-%H%M%S]. *)
Definition build_output_filename (timestamp : string) (title : option string) : string :=
  match title with
  | Some t =>
      if nonempty t then
        let sanitized := sanitize_title t in
        if nonempty sanitized then (timestamp ++ "--" ++ sanitized ++ ".mp3")%string
        else (timestamp ++ ".mp3")%string
      else (timestamp ++ ".mp3")%string
  | None => (timestamp ++ ".mp3")%string
  end.

(** A lower-case letter, a digit, an underscore or a hyphen. *)
Definition is_filename_safe (c : ascii) : bool :=
  in_range 97 122 c || in_range 48 57 c || (nat_of_ascii c =? 95)%nat || is_hyphen c.

(** Whether two hyphens stand side by side in [s]; [previous] tells that the
    character before [s] is a hyphen. *)
Fixpoint adjacent_hyphens (previous : bool) (s : string) : bool :=
  match s with
  | EmptyString => false
  | String c s' => (previous && is_hyphen c) || adjacent_hyphens (is_hyphen c) s'
  end.

Definition starts_with_hyphen (s : string) : bool :=
  match s with
  | EmptyString => false
  | String c _ => is_hyphen c
  end.

Fixpoint ends_with_hyphen (s : string) : bool :=
  match s with
  | EmptyString => false
  | String c s' =>
      match s' with
      | EmptyString => is_hyphen c
      | String _ _ => ends_with_hyphen s'
      end
  end.

(** ** detect.py *)

(** The exceptions of the checks made before a session. *)
Inductive detect_exn :=
| BinaryNotFoundError (msg : string)
| RunTimeoutExpired (msg : string)
| FileNotFoundError (msg : string)
| OSError (msg : string).

Inductive outcome (A : Type) :=
| Returned (a : A)
| Raised (e : detect_exn).
Arguments Returned {A} a.
Arguments Raised {A} e.

(** The file system as the checks see it, taken not to change while one of
    them runs: [fs_st_mode] is [None] where [stat] raises [OSError];
    [fs_which] is [shutil.which]; [fs_Path] is the constructor [Path] applied
    to a string.  [fs_exists] and [fs_is_file] are the answers of
    [Path.exists] and [Path.is_file]; a path on which these raise [OSError]
    themselves (a name too long, a directory that may not be searched) has
    no answer here, and the functions below then raise that error. *)
Record FileSystem := {
  fs_exists : Path -> bool;
  fs_is_file : Path -> bool;
  fs_st_mode : Path -> option Z;
  fs_which : string -> option string;
  fs_Path : string -> Path
}.

(** What [subprocess.run(..., capture_output=True, text=True)] returns. *)
Record CompletedProcess := {
  cp_returncode : Z;
  cp_stdout : string;
  cp_stderr : string
}.

(** [subprocess.run(argv, timeout=seconds, check=False)]. *)
Definition Runner := list string -> Z -> outcome CompletedProcess.

(** [needle in hay]. *)
Fixpoint contains (needle hay : string) : bool :=
  String.prefix needle hay ||
  match hay with
  | EmptyString => false
  | String _ hay' => contains needle hay'
  end.

(** [s.split("\n")]. *)
Fixpoint split_lines (s : string) : list string :=
  match s with
  | EmptyString => [EmptyString]
  | String c s' =>
      if Ascii.eqb c "010" then EmptyString :: split_lines s'
      else
        match split_lines s' with
        | line :: lines => String c line :: lines
        | [] => [String c EmptyString]
        end
  end.

(** [next((x for x in l if test(x)), default)]. *)
Fixpoint next_or {A} (test : A -> bool) (l : list A) (default : A) : A :=
  match l with
  | [] => default
  | x :: l' => if test x then x else next_or test l' default
  end.

(** [path.stat().st_mode & 0o111 != 0], and [False] when [stat] fails;
    [0o111] is 73. *)
Definition _is_executable (fs : FileSystem) (path : Path) : bool :=
  match fs_st_mode fs path with
  | Some mode => negb (Z.land mode 73 =? 0)
  | None => false
  end.

(** The places searched for the capture binary, as [str] shows the three
    [Path] objects. *)
Definition candidates : list Path :=
  [ "SystemAudioDump";
    ".build/release/SystemAudioDump";
    "externals/systemAudioDump/.build/release/SystemAudioDump" ].

Definition usable (fs : FileSystem) (p : Path) : bool :=
  fs_exists fs p && fs_is_file fs p && _is_executable fs p.

(** The loop over the candidates. *)
Fixpoint first_usable (fs : FileSystem) (l : list Path) : option Path :=
  match l with
  | [] => None
  | candidate :: l' => if usable fs candidate then Some candidate else first_usable fs l'
  end.

Definition find_system_audio_dump (fs : FileSystem) (custom_path : option Path)
    : outcome Path :=
  match custom_path with
  | Some p =>
      if negb (fs_exists fs p) then
        Raised (BinaryNotFoundError ("SystemAudioDump not found at: " ++ str_path p)%string)
      else if negb (fs_is_file fs p) || negb (_is_executable fs p) then
        Raised (BinaryNotFoundError ("SystemAudioDump is not executable: " ++ str_path p)%string)
      else Returned p
  | None =>
      match first_usable fs candidates with
      | Some candidate => Returned candidate
      | None =>
          Raised (BinaryNotFoundError
                    "SystemAudioDump binary not found. Please specify path with --dump-bin or build it using: swift build -c release")
      end
  end.

(** [x if x else None] read as a condition: a string that is there and not
    empty. *)
Definition truthy (o : option string) : option string :=
  match o with
  | Some s => if nonempty s then Some s else None
  | None => None
  end.

Definition find_ffmpeg (fs : FileSystem) (custom_path : option string) : outcome Path :=
  match truthy custom_path with
  | Some s =>
      let path := fs_Path fs s in
      if negb (fs_exists fs path) then
        Raised (BinaryNotFoundError ("ffmpeg not found at: " ++ s)%string)
      else if negb (_is_executable fs path) then
        Raised (BinaryNotFoundError ("ffmpeg is not executable: " ++ s)%string)
      else Returned path
  | None =>
      match truthy (fs_which fs "ffmpeg") with
      | Some ffmpeg_path => Returned (fs_Path fs ffmpeg_path)
      | None =>
          Raised (BinaryNotFoundError
                    "ffmpeg not found on PATH. Install with: brew install ffmpeg or specify path with --ffmpeg-bin")
      end
  end.

Definition check_ffmpeg_version (run : Runner) (ffmpeg_path : Path) : outcome string :=
  match run [str_path ffmpeg_path; "-version"] 10 with
  | Returned result =>
      if negb (cp_returncode result =? 0) then
        Raised (BinaryNotFoundError ("ffmpeg failed to run: " ++ cp_stderr result)%string)
      else if negb (contains "libmp3lame" (cp_stdout result)) then
        Raised (BinaryNotFoundError
                  "ffmpeg found but libmp3lame codec not available. Install ffmpeg with: brew install ffmpeg")
      else
        let lines := split_lines (cp_stdout result) in
        Returned (next_or (String.prefix "ffmpeg version") lines EmptyString)
  | Raised (RunTimeoutExpired m) =>
      Raised (BinaryNotFoundError ("ffmpeg version check timed out: " ++ m)%string)
  | Raised (FileNotFoundError m) =>
      Raised (BinaryNotFoundError ("ffmpeg not found: " ++ m)%string)
  | Raised e => Raised e
  end.

Definition permission_indicators : list string :=
  [ "screen recording"; "permission"; "privacy"; "security"; "access"; "denied" ].

(** The output of the probe is modelled as ASCII text, as titles are. *)
Definition detect_permission_issue (run : Runner) (dump_path : Path) : outcome bool :=
  match run [str_path dump_path] 3 with
  | Returned result =>
      let stderr_text := lower (cp_stderr result) in
      let stdout_text := lower (cp_stdout result) in
      Returned (existsb
                  (fun indicator =>
                     contains indicator stderr_text || contains indicator stdout_text)
                  permission_indicators)
  | Raised (RunTimeoutExpired _) => Returned true
  | Raised (FileNotFoundError _) => Returned true
  | Raised e => Raised e
  end.

(** A file system with a working capture binary in the second place searched
    and a directory named [tools] that carries the execute bits. *)
Definition sample_fs : FileSystem :=
  {| fs_exists := fun p =>
       String.eqb p ".build/release/SystemAudioDump" || String.eqb p "tools";
     fs_is_file := fun p => String.eqb p ".build/release/SystemAudioDump";
     fs_st_mode := fun p =>
       if String.eqb p ".build/release/SystemAudioDump" then Some 33261
       else if String.eqb p "tools" then Some 16877
       else None;
     fs_which := fun _ => Some "/opt/homebrew/bin/ffmpeg";
     fs_Path := fun s => s |}.

(** An encoder that answers the version query and lists the MP3 codec. *)
Definition sample_runner : Runner :=
  fun argv timeout =>
    Returned {| cp_returncode := 0;
                cp_stdout := "built with clang" ++ String "010"
                             ("ffmpeg version 6.1 --enable-libmp3lame" ++ String "010"
                              "ffmpeg version 0");
                cp_stderr := "Screen Recording PERMISSION is required" |}.

(** A probe that does not finish within its time. *)
Definition hanging_runner : Runner :=
  fun argv timeout => Raised (RunTimeoutExpired "timed out after 3 seconds").

(** * Properties *)

(** ** Calling [wait] out of order *)

(** C2.  On a Recorder without an encoder handle, [wait] raises the
    precondition error "Recording not started", makes no external call at
    all (the trace is the one it was given, so no terminate, kill, wait or
    signal reached any process) and leaves the Recorder as it was. *)
Theorem wait_before_start_fails (E : Env) (st : St) :
  _ffmpeg_process (self st) = None ->
  wait E st = (Raise (RecordingError "Recording not started"), st).
Proof.
  intros Hnone.
  unfold wait, bind, get_self, raise.
  rewrite Hnone. reflexivity.
Qed.

Lemma wait_before_start_fails_witness :
  wait calm_env fresh_state
  = (Raise (RecordingError "Recording not started"), fresh_state).
Proof.
  apply (wait_before_start_fails calm_env fresh_state).
  reflexivity.
Defined.

(** ** Stopping without a live encoder *)

(** C10.  When the Recorder has no encoder handle, or the encoder's exit has
    been observed, [stop_gracefully] returns normally, makes no external
    call (no signal is sent) and changes nothing but the stop-requested
    flag, which it sets. *)
Theorem stop_gracefully_without_live_encoder (E : Env) (st : St) :
  encoder_absent_or_exited (self st) ->
  stop_gracefully E st
  = (Ok tt, {| self := set_stop_requested true (self st); trace := trace st |}).
Proof.
  intros [Hnone | (h & c & Hsome & Hcode)];
    unfold stop_gracefully, bind, modify_self, get_self, ret; cbn.
  - rewrite Hnone. reflexivity.
  - rewrite Hsome, Hcode. reflexivity.
Qed.

Lemma stop_gracefully_without_live_encoder_witness :
  stop_gracefully calm_env fresh_state
  = (Ok tt, {| self := set_stop_requested true (self fresh_state);
               trace := trace fresh_state |})
  /\ stop_gracefully calm_env finished_state
  = (Ok tt, {| self := set_stop_requested true (self finished_state);
               trace := trace finished_state |}).
Proof.
  split.
  - apply (stop_gracefully_without_live_encoder calm_env fresh_state).
    left. reflexivity.
  - apply (stop_gracefully_without_live_encoder calm_env finished_state).
    right. eexists. exists 0. split; reflexivity.
Defined.

(** ** Traces *)

(** Every method only adds calls to the trace, and none takes back a stop
    request; the lemmas below build both facts call by call. *)

Lemma encoder_spawns_app (a b : list event) :
  encoder_spawns (a ++ b) = encoder_spawns a ++ encoder_spawns b.
Proof.
  induction a as [| ev a IH]; [reflexivity |].
  destruct ev as [p argv stdin | | | | | | | | | | | | | |]; cbn; try exact IH.
  destruct p; cbn; [f_equal |]; exact IH.
Qed.

Lemma encoder_signals_app (a b : list event) :
  encoder_signals (a ++ b) = encoder_signals a ++ encoder_signals b.
Proof.
  induction a as [| ev a IH]; [reflexivity |].
  destruct ev as [| | | | | p sig | | | | | | | | |]; cbn; try exact IH.
  destruct p; cbn; [f_equal |]; exact IH.
Qed.



(** Unfolding of the monad and of the library calls. *)
Ltac unfold_calls :=
  unfold Popen_new, Popen_poll, Popen_wait, Popen_terminate, Popen_kill,
    Popen_send_signal, stdout_close, stderr_read, drain_stderr, path_exists,
    path_st_size, Thread_start, time_time, time_sleep, log_process_result,
    log_command, logger_log.

Ltac unfold_monad :=
  unfold bind, ret, raise, try_except, get_self, get_trace, modify_self, emit,
    lift_err, lift_res.

Ltac step := unfold_calls; unfold_monad; cbn [fst snd self trace].

(** ** The command line of the encoder *)

(** A launch that gets past the check of the capture stream spawns the
    encoder exactly once, with the list the method has built. *)
Lemma start_ffmpeg_process_spawns (E : Env) (st : St) :
  dump_stdout_available (self st) = true ->
  encoder_spawns (trace (snd (_start_ffmpeg_process E st)))
  = encoder_spawns (trace st) ++
    [ (recorder_ffmpeg_cmd (config (self st)) (output_path (self st)),
       Some SystemAudioDump) ].
Proof.
  intros Havail. destruct st as [r tr]. cbn [self trace] in *.
  unfold _start_ffmpeg_process. step. rewrite Havail. cbn [negb]. step.
  destruct (os_popen E _ Ffmpeg _) as [e |]; step.
  - rewrite !encoder_spawns_app. cbn. rewrite app_nil_r. reflexivity.
  - destruct (os_poll E _ Ffmpeg) as [c |]; step.
    + destruct (handle Ffmpeg _) as [h |]; [destruct (stderr h) |]; step;
        rewrite !encoder_spawns_app; cbn; rewrite !app_nil_r; reflexivity.
    + rewrite !encoder_spawns_app. cbn. rewrite !app_nil_r. reflexivity.
Qed.

(** C5.  Whenever [_start_ffmpeg_process] gets as far as launching (the
    capture process and its output stream are there), it spawns the encoder
    exactly once, with its input bound to the output of the capture process
    and with exactly this argument list: the encoder path, banner hidden,
    log level error, input format s16le, sample rate 24000, 2 channels,
    input pipe:0, audio codec libmp3lame, audio bitrate from the
    configuration, no video, no subtitles, duration cap the configured
    maximum of seconds, and the output path last. *)
Theorem encoder_launch_arguments (E : Env) (st : St) :
  dump_stdout_available (self st) = true ->
  encoder_spawns (trace (snd (_start_ffmpeg_process E st)))
  = encoder_spawns (trace st) ++
    [ ([ str_path (ffmpeg_bin (config (self st)));
         "-hide_banner";
         "-loglevel"; "error";
         "-f"; "s16le";
         "-ar"; "24000";
         "-ac"; "2";
         "-i"; "pipe:0";
         "-c:a"; "libmp3lame";
         "-b:a"; bitrate (config (self st));
         "-vn";
         "-sn";
         "-t"; str_int (max_seconds (config (self st)));
         str_path (output_path (self st)) ],
       Some SystemAudioDump) ].
Proof.
  intros Havail. exact (start_ffmpeg_process_spawns E st Havail).
Qed.

Lemma encoder_launch_arguments_witness :
  encoder_spawns (trace (snd (_start_ffmpeg_process calm_env capture_started_state)))
  = [ ([ "ffmpeg"; "-hide_banner"; "-loglevel"; "error"; "-f"; "s16le";
         "-ar"; "24000"; "-ac"; "2"; "-i"; "pipe:0"; "-c:a"; "libmp3lame";
         "-b:a"; "160k"; "-vn"; "-sn"; "-t"; "9000";
         "recordings/focus-music.mp3" ],
       Some SystemAudioDump) ].
Proof.
  apply (encoder_launch_arguments calm_env capture_started_state).
  reflexivity.
Defined.


(** ** Closing the capture stream *)

(** C6, as the code has it.  The calm launch makes these five calls in this
    order: the close of the capture stream comes right after the spawn and
    before the liveness poll of the encoder, so the close is not preceded by
    any poll. *)
Lemma close_precedes_liveness_poll :
  trace (snd (_start_ffmpeg_process calm_env capture_started_state))
  = trace capture_started_state ++
    [ EvLog DEBUG
        ("Executing: " ++ join " " (recorder_ffmpeg_cmd sample_config sample_path))%string;
      EvPopen Ffmpeg (recorder_ffmpeg_cmd sample_config sample_path) (Some SystemAudioDump);
      EvStdoutClose SystemAudioDump;
      EvSleep 100;
      EvPoll Ffmpeg ]
  /\ close_follows_poll false
       (trace (snd (_start_ffmpeg_process calm_env capture_started_state))) = false.
Proof.
  split; reflexivity.
Qed.

(** C6, amended.  Once the encoder has been spawned, the supervisor closes
    its reference to the output stream of the capture process at once:
    before the pause and before the liveness poll, and whether that poll
    then finds the encoder alive or dead (in which case only the read of its
    error stream follows). *)
Theorem capture_stream_closed_right_after_spawn (E : Env) (st : St) :
  let cmd := recorder_ffmpeg_cmd (config (self st)) (output_path (self st)) in
  let logged := EvLog DEBUG ("Executing: " ++ join " " cmd)%string in
  dump_stdout_available (self st) = true ->
  os_popen E (trace st ++ [logged]) Ffmpeg cmd = None ->
  trace (snd (_start_ffmpeg_process E st))
  = trace st ++
    [ logged;
      EvPopen Ffmpeg cmd (Some SystemAudioDump);
      EvStdoutClose SystemAudioDump;
      EvSleep 100;
      EvPoll Ffmpeg ] ++
    match os_poll E (trace st ++
                     [ logged; EvPopen Ffmpeg cmd (Some SystemAudioDump);
                       EvStdoutClose SystemAudioDump; EvSleep 100 ]) Ffmpeg with
    | None => []
    | Some _ => [EvStderrRead Ffmpeg]
    end
  /\ option_map stdout (_dump_process (self (snd (_start_ffmpeg_process E st))))
     = Some (Some {| closed := true |}).
Proof.
  intros cmd logged Havail Hspawn. destruct st as [r tr]. cbn [self trace] in *.
  unfold _start_ffmpeg_process. step. rewrite Havail. cbn [negb]. step.
  fold cmd. fold logged. rewrite Hspawn. step.
  repeat (rewrite <- app_assoc; cbn [app]).
  assert (Hclosed : option_map stdout (_dump_process (close_stdout SystemAudioDump
            (set_handle Ffmpeg (Some (fresh_popen cmd)) r)))
          = Some (Some {| closed := true |})).
  { unfold dump_stdout_available in Havail.
    unfold close_stdout. cbn.
    destruct (_dump_process r) as [d |]; [| discriminate].
    cbn. destruct (stdout d); [reflexivity | discriminate]. }
  destruct (os_poll E _ Ffmpeg) as [c |]; step.
  - cbn [handle set_returncode close_stdout set_handle option_map
           _ffmpeg_process with_returncode stderr fresh_popen].
    step. repeat (rewrite <- app_assoc; cbn [app]).
    split; [reflexivity | exact Hclosed].
  - split; [reflexivity | exact Hclosed].
Qed.

Lemma capture_stream_closed_right_after_spawn_witness :
  option_map stdout
    (_dump_process (self (snd (_start_ffmpeg_process calm_env capture_started_state))))
  = Some (Some {| closed := true |}).
Proof.
  apply (capture_stream_closed_right_after_spawn calm_env capture_started_state);
    reflexivity.
Defined.

(** ** The phases of [wait] *)

Ltac flatten_trace := repeat (rewrite <- app_assoc; cbn [app]).

(** Logging the outcome never fails, touches no process and leaves the
    Recorder alone. *)
Lemma log_outcome_run (E : Env) (c : Z) (st : St) :
  exists evs,
    log_outcome E c st = (Ok tt, {| self := self st; trace := trace st ++ evs |})
    /\ Forall (fun ev => is_process_operation ev = false) evs.
Proof.
  destruct st as [r tr]. unfold log_outcome. step.
  destruct (_dump_process r) as [d |]; step;
    [destruct (or_0 (returncode d) =? 0); step |];
    destruct (c =? 0); step;
    destruct (_stop_requested r); step;
    flatten_trace; eexists; (split; [reflexivity | repeat constructor]).
Qed.

(** The three ways the check of the output file can go. *)
Lemma check_artifact_missing (E : Env) (c : Z) (st : St) :
  os_exists E (trace st) (output_path (self st)) = false ->
  check_artifact E c st
  = (Raise (RecordingError "Output file was not created"),
     {| self := self st; trace := trace st ++ [EvExists (output_path (self st))] |}).
Proof.
  intros Hmissing. destruct st as [r tr]. cbn [self trace] in *.
  unfold check_artifact. step. rewrite Hmissing. reflexivity.
Qed.

Lemma check_artifact_present (E : Env) (c : Z) (st : St) :
  os_exists E (trace st) (output_path (self st)) = true ->
  exists evs,
    check_artifact E c st
    = (match os_st_size E (trace st ++ [EvExists (output_path (self st))])
               (output_path (self st)) with
       | Ok _ => Ok c
       | Raise e => Raise e
       end,
       {| self := self st; trace := trace st ++ evs |})
    /\ Forall (fun ev => is_process_operation ev = false) evs.
Proof.
  intros Hpresent. destruct st as [r tr]. cbn [self trace] in *.
  unfold check_artifact. step. rewrite Hpresent. cbn [negb]. step.
  destruct (os_st_size E _ _) as [n | e]; step; flatten_trace;
    eexists; (split; [reflexivity | repeat constructor]).
Qed.

(** A process whose handle is missing, or whose exit has been observed, is
    left alone by the cleanup. *)
Lemma cleanup_process_settled (E : Env) (p : proc) (st : St) :
  settled p (self st) ->
  cleanup_process E p st = (Ok tt, st).
Proof.
  intros Hsettled. destruct st as [r tr]. cbn [self trace] in *.
  unfold cleanup_process, settled, returncode_of in *. step.
  destruct (handle p r) as [h |]; [| reflexivity].
  destruct Hsettled as [Habs | Hcode]; [discriminate |].
  destruct (returncode h); [reflexivity | contradiction].
Qed.

Lemma cleanup_processes_settled (E : Env) (st : St) :
  settled Ffmpeg (self st) ->
  settled SystemAudioDump (self st) ->
  _cleanup_processes E st = (Ok tt, st).
Proof.
  intros Hf Hd. unfold _cleanup_processes. cbn [for_each]. unfold bind.
  rewrite (cleanup_process_settled E Ffmpeg st Hf).
  rewrite (cleanup_process_settled E SystemAudioDump st Hd).
  reflexivity.
Qed.

Lemma extends_ret {A} (a : A) : extends_trace (ret a).
Proof. intros st. exists []. cbn. symmetry. apply app_nil_r. Qed.

Lemma extends_raise {A} (e : exn) : extends_trace (@raise A e).
Proof. intros st. exists []. cbn. symmetry. apply app_nil_r. Qed.

Lemma extends_bind {A B} (m : M A) (k : A -> M B) :
  extends_trace m -> (forall a, extends_trace (k a)) -> extends_trace (bind m k).
Proof.
  intros Hm Hk st. unfold bind.
  destruct (Hm st) as [evs Hevs].
  destruct (m st) as [[a | e] st'] eqn:Hrun; cbn [snd] in *.
  - destruct (Hk a st') as [evs' Hevs'].
    exists (evs ++ evs'). rewrite Hevs', Hevs. symmetry. apply app_assoc.
  - exists evs. exact Hevs.
Qed.

Lemma extends_try_except {A} (m : M A) (h : exn -> M A) :
  extends_trace m -> (forall e, extends_trace (h e)) -> extends_trace (try_except m h).
Proof.
  intros Hm Hh st. unfold try_except.
  destruct (Hm st) as [evs Hevs].
  destruct (m st) as [[a | e] st'] eqn:Hrun; cbn [snd] in *.
  - exists evs. exact Hevs.
  - destruct (Hh e st') as [evs' Hevs'].
    exists (evs ++ evs'). rewrite Hevs', Hevs. symmetry. apply app_assoc.
Qed.

Lemma extends_emit (ev : event) : extends_trace (emit ev).
Proof. intros st. exists [ev]. reflexivity. Qed.

Lemma extends_get_self : extends_trace get_self.
Proof. intros st. exists []. cbn. symmetry. apply app_nil_r. Qed.

Lemma extends_get_trace : extends_trace get_trace.
Proof. intros st. exists []. cbn. symmetry. apply app_nil_r. Qed.

Lemma extends_modify_self (f : Recorder -> Recorder) : extends_trace (modify_self f).
Proof. intros st. exists []. cbn. symmetry. apply app_nil_r. Qed.

Lemma extends_lift_err (o : option exn) : extends_trace (lift_err o).
Proof. destruct o; [apply extends_raise | apply extends_ret]. Qed.

Lemma extends_lift_res {A} (r : res A) : extends_trace (lift_res r).
Proof. intros st. exists []. cbn. symmetry. apply app_nil_r. Qed.

Create HintDb extends discriminated.
#[local] Hint Resolve extends_ret extends_raise extends_emit extends_get_self
  extends_get_trace extends_modify_self extends_lift_err extends_lift_res
  : extends.

Ltac extends_auto :=
  repeat first
    [ apply extends_bind; [| intro]
    | apply extends_try_except; [| intro]
    | progress auto with extends
    | match goal with
      | |- extends_trace (match ?x with _ => _ end) => destruct x
      | |- extends_trace (if ?x then _ else _) => destruct x
      end ].

Lemma extends_cleanup_process (E : Env) (p : proc) : extends_trace (cleanup_process E p).
Proof. unfold cleanup_process. unfold_calls. extends_auto. Qed.

Lemma extends_cleanup_processes (E : Env) : extends_trace (_cleanup_processes E).
Proof.
  unfold _cleanup_processes. cbn [for_each].
  apply extends_bind; [apply extends_cleanup_process | intros _].
  apply extends_bind; [apply extends_cleanup_process | intros _].
  apply extends_ret.
Qed.

Lemma extends_log_outcome (E : Env) (c : Z) : extends_trace (log_outcome E c).
Proof. unfold log_outcome. unfold_calls. extends_auto. Qed.

Lemma extends_check_artifact (E : Env) (c : Z) : extends_trace (check_artifact E c).
Proof. unfold check_artifact. unfold_calls. extends_auto. Qed.

Lemma extends_wait_except (E : Env) (e : exn) : extends_trace (wait_except E e).
Proof.
  unfold wait_except.
  apply extends_bind; [apply extends_cleanup_processes | intros _].
  apply extends_raise.
Qed.

(** The [except] clause always ends by raising. *)
Lemma wait_except_raises (E : Env) (e : exn) (st : St) :
  exists e', fst (wait_except E e st) = Raise e'.
Proof.
  unfold wait_except, bind, raise.
  destruct (_cleanup_processes E st) as [[[] | e'] st'];
    eexists; reflexivity.
Qed.

(** What is added to the trace of the first part of a guarded sequence is kept
    by whatever follows it. *)
Lemma after_first {A B} (m : M A) (k : A -> M B) (h : exn -> M B) (st : St) :
  (forall a, extends_trace (k a)) ->
  (forall e, extends_trace (h e)) ->
  exists evs,
    trace (snd (try_except (bind m k) h st)) = trace (snd (m st)) ++ evs.
Proof.
  intros Hk Hh. unfold try_except, bind.
  destruct (m st) as [[a | e] st1]; cbn [snd].
  - destruct (Hk a st1) as [evs Hevs].
    destruct (k a st1) as [[b | e] st2]; cbn [snd] in *.
    + exists evs. exact Hevs.
    + destruct (Hh e st2) as [evs' Hevs'].
      exists (evs ++ evs'). rewrite Hevs', Hevs. symmetry. apply app_assoc.
  - apply Hh.
Qed.

(** [wait] on a started session whose encoder exits with code [c]. *)
Lemma wait_started (E : Env) (st : St) (fp : Popen) (c : Z) :
  _ffmpeg_process (self st) = Some fp ->
  os_wait E (trace st) Ffmpeg None = Ok c ->
  wait E st
  = try_except (reap_dump E;; log_outcome E c;; check_artifact E c) (wait_except E)
      {| self := set_returncode Ffmpeg c (self st);
         trace := trace st ++ [EvWait Ffmpeg None] |}.
Proof.
  intros Hstarted Hexit. destruct st as [r tr]. cbn [self trace] in *.
  unfold wait, wait_body. step. rewrite Hstarted. cbn [is_None]. step.
  rewrite Hexit. reflexivity.
Qed.

(** Reaping a capture process that accepts the termination request. *)
Lemma reap_dump_run (E : Env) (st : St) :
  capture_running (self st) ->
  os_terminate E (trace st) SystemAudioDump = None ->
  let asked := trace st ++ [EvTerminate SystemAudioDump] in
  let killing :=
    asked ++ [ EvWait SystemAudioDump (Some 5);
               EvLog DEBUG "SystemAudioDump did not terminate gracefully, killing" ] in
  reap_dump E st
  = match os_wait E asked SystemAudioDump (Some 5) with
    | Ok c' =>
        (Ok tt, {| self := set_returncode SystemAudioDump c' (self st);
                   trace := asked ++ [EvWait SystemAudioDump (Some 5)] |})
    | Raise (TimeoutExpired _) =>
        match os_kill E killing SystemAudioDump with
        | Some e =>
            (Raise e, {| self := self st; trace := killing ++ [EvKill SystemAudioDump] |})
        | None =>
            match os_wait E (killing ++ [EvKill SystemAudioDump]) SystemAudioDump None with
            | Ok c' =>
                (Ok tt, {| self := set_returncode SystemAudioDump c' (self st);
                           trace := killing ++ [ EvKill SystemAudioDump;
                                                 EvWait SystemAudioDump None ] |})
            | Raise e =>
                (Raise e, {| self := self st;
                             trace := killing ++ [ EvKill SystemAudioDump;
                                                   EvWait SystemAudioDump None ] |})
            end
        end
    | Raise e =>
        (Raise e, {| self := self st; trace := asked ++ [EvWait SystemAudioDump (Some 5)] |})
    end.
Proof.
  intros (d & Hdump & Hcode) Hasked asked killing. subst asked killing.
  destruct st as [r tr]. cbn [self trace] in *.
  unfold reap_dump. step. rewrite Hdump, Hcode. cbn [is_None]. step.
  rewrite Hasked. step. flatten_trace.
  destruct (os_wait E (tr ++ [EvTerminate SystemAudioDump]) SystemAudioDump (Some 5))
    as [c' | [m | m | m]]; step; flatten_trace; try reflexivity.
  destruct (os_kill E _ SystemAudioDump) as [e |]; step; flatten_trace;
    [reflexivity |].
  destruct (os_wait E _ SystemAudioDump None) as [c' | e]; step; flatten_trace;
    reflexivity.
Qed.

(** With both children settled the [except] clause has nothing to clean. *)
Lemma wait_except_settled (E : Env) (e : exn) (st : St) :
  settled Ffmpeg (self st) ->
  settled SystemAudioDump (self st) ->
  wait_except E e st
  = (Raise (RecordingError ("Recording failed: " ++ str_exn e)%string), st).
Proof.
  intros Hf Hd. unfold wait_except, bind, raise.
  rewrite (cleanup_processes_settled E st Hf Hd). reflexivity.
Qed.

(** The end of [wait] once both children are settled: no process is touched
    any more, the Recorder is left alone, and the result is decided by the
    output file. *)
Lemma wait_tail_settled (E : Env) (c : Z) (st : St) :
  settled Ffmpeg (self st) ->
  settled SystemAudioDump (self st) ->
  exists result evs,
    try_except (log_outcome E c;; check_artifact E c) (wait_except E) st
    = (result, {| self := self st; trace := trace st ++ evs |})
    /\ Forall (fun ev => is_process_operation ev = false) evs
    /\ ((forall tr, os_exists E tr (output_path (self st)) = true) ->
        (forall tr, exists n, os_st_size E tr (output_path (self st)) = Ok n) ->
        result = Ok c)
    /\ ((forall tr, os_exists E tr (output_path (self st)) = false) ->
        result = Raise (RecordingError "Recording failed: Output file was not created")).
Proof.
  intros Hf Hd.
  destruct (log_outcome_run E c st) as (evs1 & Hlog & Hquiet1).
  unfold try_except, bind. rewrite Hlog.
  set (st1 := {| self := self st; trace := trace st ++ evs1 |}).
  destruct (os_exists E (trace st1) (output_path (self st1))) eqn:Hexists.
  - destruct (check_artifact_present E c st1 Hexists) as (evs2 & Hcheck & Hquiet2).
    rewrite Hcheck. subst st1. cbn [self trace] in *.
    destruct (os_st_size E _ _) as [n | e] eqn:Hsize.
    + exists (Ok c), (evs1 ++ evs2). rewrite app_assoc.
      split; [reflexivity |]. split; [apply Forall_app; split; assumption |].
      split; [reflexivity |].
      intros Hmissing. rewrite Hmissing in Hexists. discriminate.
    + rewrite wait_except_settled by assumption.
      exists (Raise (RecordingError ("Recording failed: " ++ str_exn e)%string)),
        (evs1 ++ evs2).
      rewrite app_assoc.
      split; [reflexivity |]. split; [apply Forall_app; split; assumption |].
      split.
      * intros _ Hstat.
        destruct (Hstat (trace st ++ evs1 ++ [EvExists (output_path (self st))]))
          as [n Hn].
        rewrite <- app_assoc in Hsize. rewrite Hn in Hsize. discriminate.
      * intros Hmissing. rewrite Hmissing in Hexists. discriminate.
  - rewrite (check_artifact_missing E c st1 Hexists).
    rewrite wait_except_settled by assumption. subst st1. cbn [self trace] in *.
    exists (Raise (RecordingError "Recording failed: Output file was not created")),
      (evs1 ++ [EvExists (output_path (self st))]).
    rewrite app_assoc.
    split; [reflexivity |].
    split; [apply Forall_app; split; [assumption | repeat constructor] |].
    split; [| reflexivity].
    intros Hpresent _. rewrite Hpresent in Hexists. discriminate.
Qed.

Lemma try_except_bind_ok {A B} (m : M A) (k : A -> M B) (h : exn -> M B)
    (st st' : St) (a : A) :
  m st = (Ok a, st') ->
  try_except (bind m k) h st = try_except (k a) h st'.
Proof. intros Hrun. unfold try_except, bind. rewrite Hrun. reflexivity. Qed.

Lemma try_except_bind_raise {A B} (m : M A) (k : A -> M B) (h : exn -> M B)
    (st st' : St) (e : exn) :
  m st = (Raise e, st') ->
  try_except (bind m k) h st = h e st'.
Proof. intros Hrun. unfold try_except, bind. rewrite Hrun. reflexivity. Qed.

Lemma settled_set_returncode (p : proc) (c : Z) (r : Recorder) :
  settled p (set_returncode p c r).
Proof.
  unfold settled, returncode_of, set_returncode.
  destruct p; cbn.
  - destruct (_ffmpeg_process r); [right; discriminate | left; reflexivity].
  - destruct (_dump_process r); [right; discriminate | left; reflexivity].
Qed.

Lemma settled_other (p q : proc) (c : Z) (r : Recorder) :
  settled p r -> settled p (set_returncode q c r).
Proof.
  intros Hs. destruct (settled_set_returncode p c r) as [Hnone | Hcode];
    destruct p, q; try (left; exact Hnone); try (right; exact Hcode);
    exact Hs.
Qed.

(** ** Reaping the capture process *)

(** C1.  In [wait], once the encoder has exited (with code [c]) and the
    capture process has not been seen to exit, the next call asks the capture
    process to terminate and the one after waits for it with a timeout of
    5 seconds.  If that wait expires, a debug line is logged, the capture
    process is killed and then waited for again, this time without timeout.
    If that wait returns instead, no process is touched again: there is no
    kill and no second wait. *)
Theorem wait_reaps_capture_process (E : Env) (st : St) (fp : Popen) (c : Z) :
  _ffmpeg_process (self st) = Some fp ->
  capture_running (self st) ->
  os_wait E (trace st) Ffmpeg None = Ok c ->
  (forall tr, os_terminate E tr SystemAudioDump = None) ->
  (forall tr, os_kill E tr SystemAudioDump = None) ->
  let asked := trace st ++ [EvWait Ffmpeg None; EvTerminate SystemAudioDump] in
  exists rest,
    trace (snd (wait E st))
    = asked ++ [EvWait SystemAudioDump (Some 5)] ++
      match os_wait E asked SystemAudioDump (Some 5) with
      | Raise (TimeoutExpired _) =>
          [ EvLog DEBUG "SystemAudioDump did not terminate gracefully, killing";
            EvKill SystemAudioDump;
            EvWait SystemAudioDump None ]
      | _ => []
      end ++ rest
    /\ (forall c', os_wait E asked SystemAudioDump (Some 5) = Ok c' ->
        Forall (fun ev => is_process_operation ev = false) rest).
Proof.
  intros Hstarted Hrunning Hexit Hterminate Hkill asked.
  rewrite (wait_started E st fp c Hstarted Hexit).
  set (st1 := {| self := set_returncode Ffmpeg c (self st);
                 trace := trace st ++ [EvWait Ffmpeg None] |}).
  assert (Hrunning1 : capture_running (self st1)).
  { destruct Hrunning as (d & Hdump & Hcode). exists d. split; assumption. }
  pose proof (reap_dump_run E st1 Hrunning1 (Hterminate _)) as Hreap.
  cbv zeta in Hreap. cbn [self trace st1] in Hreap.
  repeat (rewrite <- app_assoc in Hreap; cbn [app] in Hreap).
  fold asked in Hreap.
  destruct (after_first (reap_dump E)
              (fun _ => log_outcome E c;; check_artifact E c) (wait_except E) st1)
    as [evs Hevs].
  { intros _. apply extends_bind; [apply extends_log_outcome | intros _].
    apply extends_check_artifact. }
  { apply extends_wait_except. }
  destruct (os_wait E asked SystemAudioDump (Some 5)) as [c' | [m | m | m]].
  - rewrite (try_except_bind_ok _ _ _ _ _ _ Hreap).
    destruct (wait_tail_settled E c
                {| self := set_returncode SystemAudioDump c'
                             (set_returncode Ffmpeg c (self st));
                   trace := trace st ++
                            [ EvWait Ffmpeg None; EvTerminate SystemAudioDump;
                              EvWait SystemAudioDump (Some 5) ] |})
      as (result & rest & Htail & Hquiet & _).
    { apply settled_other, settled_set_returncode. }
    { apply settled_set_returncode. }
    exists rest. cbv beta. rewrite Htail. cbn [snd self trace app].
    split; [unfold asked; flatten_trace; reflexivity | intros; exact Hquiet].
  - rewrite Hkill in Hreap. exists evs. split; [| discriminate].
    rewrite Hevs.
    destruct (os_wait E _ SystemAudioDump None); rewrite Hreap; cbn [snd trace];
      unfold asked; flatten_trace; reflexivity.
  - exists evs. split; [| discriminate].
    rewrite Hevs, Hreap. cbn [snd trace]. unfold asked. flatten_trace. reflexivity.
  - exists evs. split; [| discriminate].
    rewrite Hevs, Hreap. cbn [snd trace]. unfold asked. flatten_trace. reflexivity.
Qed.

Lemma wait_reaps_capture_process_witness :
  exists rest,
    trace (snd (wait stubborn_env started_state))
    = (trace started_state ++ [EvWait Ffmpeg None; EvTerminate SystemAudioDump]) ++
      [EvWait SystemAudioDump (Some 5)] ++
      [ EvLog DEBUG "SystemAudioDump did not terminate gracefully, killing";
        EvKill SystemAudioDump;
        EvWait SystemAudioDump None ] ++ rest.
Proof.
  destruct (wait_reaps_capture_process stubborn_env started_state
              (fresh_popen (recorder_ffmpeg_cmd sample_config sample_path)) 0
              eq_refl
              (ex_intro _ (with_stdout (Some {| closed := true |})
                             (fresh_popen [str_path (dump_bin sample_config)]))
                 (conj eq_refl eq_refl))
              eq_refl (fun _ => eq_refl) (fun _ => eq_refl))
    as [rest [Htrace _]].
  exists rest. exact Htrace.
Defined.

(** ** The result of [wait] *)

Lemma output_path_set_returncode (p : proc) (c : Z) (r : Recorder) :
  output_path (set_returncode p c r) = output_path r.
Proof. destruct p; reflexivity. Qed.

Lemma reap_dump_settled (E : Env) (st : St) :
  settled SystemAudioDump (self st) -> reap_dump E st = (Ok tt, st).
Proof.
  intros Hs. destruct st as [r tr]. cbn [self] in Hs.
  unfold reap_dump, settled, returncode_of in *. cbn [handle] in Hs. step.
  destruct (_dump_process r) as [d |]; [| reflexivity].
  destruct Hs as [Habs | Hcode]; [discriminate |].
  destruct (returncode d); [reflexivity | contradiction].
Qed.







(** ** Failures while reaping *)

(** C7, as the code has it.  The encoder exits with code 0 and the output
    file exists, so the calm session returns 0; when terminating the capture
    process fails, [wait] raises instead: the failure of the handle replaces
    the result. *)
Lemma capture_handle_error_replaces_result :
  fst (wait calm_env started_state) = Ok 0
  /\ os_wait refusing_env (trace started_state) Ffmpeg None = Ok 0
  /\ (forall tr path, os_exists refusing_env tr path = true)
  /\ (forall tr path, os_st_size refusing_env tr path = Ok 4096)
  /\ os_terminate refusing_env (trace started_state ++ [EvWait Ffmpeg None]) SystemAudioDump
     = Some (OtherException "[Errno 1] Operation not permitted")
  /\ fst (wait refusing_env started_state)
     = Raise (RecordingError "Recording failed: [Errno 1] Operation not permitted").
Proof.
  repeat split; reflexivity.
Qed.

(** A failure of the body of [wait] always ends in [wait] raising. *)
Lemma wait_raises_after (E : Env) (c : Z) (m : M unit) (st st' : St) (e : exn) :
  m st = (Raise e, st') ->
  exists e',
    fst (try_except (m;; log_outcome E c;; check_artifact E c) (wait_except E) st)
    = Raise e'.
Proof.
  intros Hrun. rewrite (try_except_bind_raise _ _ _ _ _ _ Hrun).
  apply wait_except_raises.
Qed.

(** In [_cleanup_processes] an error of [terminate] other than a timeout is
    logged at debug level and goes no further. *)
Lemma cleanup_process_swallows (E : Env) (p : proc) (st : St) (h : Popen) (msg : string) :
  handle p (self st) = Some h ->
  returncode h = None ->
  os_terminate E (trace st ++ [EvLog DEBUG ("Terminating " ++ proc_name p)%string]) p
  = Some (OtherException msg) ->
  cleanup_process E p st
  = (Ok tt,
     {| self := self st;
        trace := trace st ++
                 [ EvLog DEBUG ("Terminating " ++ proc_name p)%string;
                   EvTerminate p;
                   EvLog DEBUG ("Error cleaning up " ++ proc_name p ++ ": " ++ msg)%string ] |}).
Proof.
  intros Hh Hcode Hterm. destruct st as [r tr]. cbn [self trace] in *.
  unfold cleanup_process. step. rewrite Hh, Hcode. cbn [is_None]. step.
  rewrite Hterm. step. flatten_trace. reflexivity.
Qed.

(** C7, amended.  On a started session whose encoder exits with code [c]
    while the capture process is still running, with the output file in
    place and its size readable, the result of [wait] is decided by the
    calls on the capture process, each answered on the trace it is made on:
    - if terminating the capture process fails, [wait] raises;
    - if the 5-second wait returns, [wait] returns [c];
    - if the 5-second wait expires, this is logged at debug level and the
      process is killed: [wait] raises if the kill fails, raises if the
      second wait fails, and returns [c] if the second wait returns;
    - if the 5-second wait fails in any other way, [wait] raises.
    Only in [_cleanup_processes] is an error of [terminate] that is not a
    timeout logged at debug level and dropped. *)
Theorem wait_tolerates_only_the_timeout (E : Env) (st : St) (fp : Popen) (c : Z) :
  _ffmpeg_process (self st) = Some fp ->
  capture_running (self st) ->
  os_wait E (trace st) Ffmpeg None = Ok c ->
  (forall tr, os_exists E tr (output_path (self st)) = true) ->
  (forall tr, exists n, os_st_size E tr (output_path (self st)) = Ok n) ->
  let reaped := trace st ++ [EvWait Ffmpeg None] in
  let asked := reaped ++ [EvTerminate SystemAudioDump] in
  let killing :=
    asked ++ [ EvWait SystemAudioDump (Some 5);
               EvLog DEBUG "SystemAudioDump did not terminate gracefully, killing" ] in
  match os_terminate E reaped SystemAudioDump with
  | Some _ => exists e', fst (wait E st) = Raise e'
  | None =>
      match os_wait E asked SystemAudioDump (Some 5) with
      | Ok _ => fst (wait E st) = Ok c
      | Raise (TimeoutExpired _) =>
          In (EvLog DEBUG "SystemAudioDump did not terminate gracefully, killing")
             (trace (snd (wait E st)))
          /\ match os_kill E killing SystemAudioDump with
             | Some _ => exists e', fst (wait E st) = Raise e'
             | None =>
                 match os_wait E (killing ++ [EvKill SystemAudioDump])
                         SystemAudioDump None with
                 | Ok _ => fst (wait E st) = Ok c
                 | Raise _ => exists e', fst (wait E st) = Raise e'
                 end
             end
      | Raise _ => exists e', fst (wait E st) = Raise e'
      end
  end
  /\ (forall p st' h msg,
        handle p (self st') = Some h ->
        returncode h = None ->
        os_terminate E (trace st' ++ [EvLog DEBUG ("Terminating " ++ proc_name p)%string]) p
        = Some (OtherException msg) ->
        fst (cleanup_process E p st') = Ok tt
        /\ In (EvLog DEBUG ("Error cleaning up " ++ proc_name p ++ ": " ++ msg)%string)
              (trace (snd (cleanup_process E p st')))).
Proof.
  intros Hstarted Hrunning Hexit Hexists Hsize reaped asked killing.
  split.
  2:{ intros p st' h msg Hh Hcode Hterm.
      rewrite (cleanup_process_swallows E p st' h msg Hh Hcode Hterm).
      cbn [fst snd trace]. split; [reflexivity |].
      apply in_or_app. right. right. right. left. reflexivity. }
  rewrite (wait_started E st fp c Hstarted Hexit).
  set (st1 := {| self := set_returncode Ffmpeg c (self st);
                 trace := trace st ++ [EvWait Ffmpeg None] |}).
  assert (Hrunning1 : capture_running (self st1)).
  { destruct Hrunning as (d & Hdump & Hcode). exists d. split; assumption. }
  assert (Hf1 : settled Ffmpeg (self st1)) by apply settled_set_returncode.
  assert (Hfinish : forall c' tr',
            fst (try_except (log_outcome E c;; check_artifact E c) (wait_except E)
                   {| self := set_returncode SystemAudioDump c' (self st1);
                      trace := tr' |}) = Ok c).
  { intros c' tr'.
    destruct (wait_tail_settled E c
                {| self := set_returncode SystemAudioDump c' (self st1); trace := tr' |})
      as (result & evs & Htail & _ & Hyes & _).
    { apply settled_other. exact Hf1. }
    { apply settled_set_returncode. }
    rewrite Htail. cbn [fst]. apply Hyes; cbn [self];
      rewrite !output_path_set_returncode; assumption. }
  destruct (os_terminate E reaped SystemAudioDump) as [e |] eqn:Hterm.
  - apply wait_raises_after with (st' := {| self := self st1;
                                           trace := trace st1 ++ [EvTerminate SystemAudioDump] |})
                                 (e := e).
    destruct Hrunning1 as (d & Hdump & Hcode).
    unfold reap_dump. step. rewrite Hdump, Hcode. cbn [is_None]. step.
    change (trace st1) with reaped. rewrite Hterm. reflexivity.
  - pose proof (reap_dump_run E st1 Hrunning1 Hterm) as Hreap.
    cbv zeta in Hreap. cbn [trace st1] in Hreap.
    fold reaped in Hreap. fold asked in Hreap. fold killing in Hreap.
    destruct (os_wait E asked SystemAudioDump (Some 5)) as [c' | [m | m | m]].
    + rewrite (try_except_bind_ok _ _ _ _ _ _ Hreap). apply Hfinish.
    + split.
      * destruct (after_first (reap_dump E)
                    (fun _ => log_outcome E c;; check_artifact E c) (wait_except E) st1)
          as [evs Hevs].
        { intros _. apply extends_bind; [apply extends_log_outcome | intros _].
          apply extends_check_artifact. }
        { apply extends_wait_except. }
        rewrite Hevs. apply in_or_app. left. rewrite Hreap.
        destruct (os_kill E killing SystemAudioDump);
          [| destruct (os_wait E (killing ++ [EvKill SystemAudioDump])
                        SystemAudioDump None)];
          cbn [snd trace]; subst killing;
          repeat rewrite in_app_iff; cbn [In]; auto 10.
      * destruct (os_kill E killing SystemAudioDump) as [e |].
        -- exact (wait_raises_after E c _ _ _ _ Hreap).
        -- destruct (os_wait E (killing ++ [EvKill SystemAudioDump])
                       SystemAudioDump None) as [c' | e].
           ++ rewrite (try_except_bind_ok _ _ _ _ _ _ Hreap). apply Hfinish.
           ++ exact (wait_raises_after E c _ _ _ _ Hreap).
    + exact (wait_raises_after E c _ _ _ _ Hreap).
    + exact (wait_raises_after E c _ _ _ _ Hreap).
Qed.

Lemma wait_tolerates_only_the_timeout_witness :
  fst (wait stubborn_env started_state) = Ok 0.
Proof.
  exact (proj2 (proj1 (wait_tolerates_only_the_timeout stubborn_env started_state
                         (fresh_popen (recorder_ffmpeg_cmd sample_config sample_path)) 0
                         eq_refl
                         (ex_intro _ (with_stdout (Some {| closed := true |})
                                        (fresh_popen [str_path (dump_bin sample_config)]))
                            (conj eq_refl eq_refl))
                         eq_refl (fun _ => eq_refl)
                         (fun _ => ex_intro _ 4096 eq_refl)))).
Defined.

(** ** The stop request *)

Lemma keeps_ret {A} (a : A) : keeps_stop (ret a).
Proof. intros st H. exact H. Qed.

Lemma keeps_raise {A} (e : exn) : keeps_stop (@raise A e).
Proof. intros st H. exact H. Qed.

Lemma keeps_bind {A B} (m : M A) (k : A -> M B) :
  keeps_stop m -> (forall a, keeps_stop (k a)) -> keeps_stop (bind m k).
Proof.
  intros Hm Hk st H. unfold bind. specialize (Hm st H).
  destruct (m st) as [[a | e] st']; cbn [snd] in *.
  - apply Hk. exact Hm.
  - exact Hm.
Qed.

Lemma keeps_try_except {A} (m : M A) (h : exn -> M A) :
  keeps_stop m -> (forall e, keeps_stop (h e)) -> keeps_stop (try_except m h).
Proof.
  intros Hm Hh st H. unfold try_except. specialize (Hm st H).
  destruct (m st) as [[a | e] st']; cbn [snd] in *.
  - exact Hm.
  - apply Hh. exact Hm.
Qed.

Lemma keeps_emit (ev : event) : keeps_stop (emit ev).
Proof. intros st H. exact H. Qed.

Lemma keeps_get_self : keeps_stop get_self.
Proof. intros st H. exact H. Qed.

Lemma keeps_get_trace : keeps_stop get_trace.
Proof. intros st H. exact H. Qed.

Lemma keeps_lift_err (o : option exn) : keeps_stop (lift_err o).
Proof. destruct o; intros st H; exact H. Qed.

Lemma keeps_lift_res {A} (r : res A) : keeps_stop (lift_res r).
Proof. intros st H. exact H. Qed.

Lemma keeps_modify_self (f : Recorder -> Recorder) :
  (forall r, _stop_requested (f r) = _stop_requested r \/ _stop_requested (f r) = true) ->
  keeps_stop (modify_self f).
Proof.
  intros Hf st H. cbn. destruct (Hf (self st)) as [Hsame | Hset].
  - rewrite Hsame. exact H.
  - exact Hset.
Qed.

Lemma stop_requested_set_handle (p : proc) (h : option Popen) (r : Recorder) :
  _stop_requested (set_handle p h r) = _stop_requested r.
Proof. destruct p; reflexivity. Qed.

Lemma keeps_set_handle (p : proc) (h : option Popen) :
  keeps_stop (modify_self (set_handle p h)).
Proof. apply keeps_modify_self. intros r. left. apply stop_requested_set_handle. Qed.

Lemma keeps_set_returncode (p : proc) (c : Z) :
  keeps_stop (modify_self (set_returncode p c)).
Proof. apply keeps_modify_self. intros r. left. apply stop_requested_set_handle. Qed.

Lemma keeps_close_stdout (p : proc) : keeps_stop (modify_self (close_stdout p)).
Proof. apply keeps_modify_self. intros r. left. apply stop_requested_set_handle. Qed.

Lemma keeps_set_start_time (t : option Z) : keeps_stop (modify_self (set_start_time t)).
Proof. apply keeps_modify_self. intros r. left. reflexivity. Qed.

Lemma keeps_set_status_thread (t : option unit) :
  keeps_stop (modify_self (set_status_thread t)).
Proof. apply keeps_modify_self. intros r. left. reflexivity. Qed.

Lemma keeps_set_stop_requested : keeps_stop (modify_self (set_stop_requested true)).
Proof. apply keeps_modify_self. intros r. right. reflexivity. Qed.

Lemma keeps_identity : keeps_stop (modify_self (fun r => r)).
Proof. apply keeps_modify_self. intros r. left. reflexivity. Qed.

Create HintDb keeps discriminated.
#[local] Hint Resolve keeps_ret keeps_raise keeps_emit keeps_get_self keeps_get_trace
  keeps_lift_err keeps_lift_res keeps_set_handle keeps_set_returncode
  keeps_close_stdout keeps_set_start_time keeps_set_status_thread
  keeps_set_stop_requested keeps_identity : keeps.

Ltac keeps_auto :=
  repeat first
    [ progress auto with keeps
    | apply keeps_bind; [| intro]
    | apply keeps_try_except; [| intro]
    | match goal with
      | |- keeps_stop (match ?x with _ => _ end) => destruct x
      | |- keeps_stop (if ?x then _ else _) => destruct x
      end ].

Lemma keeps_cleanup_processes (E : Env) : keeps_stop (_cleanup_processes E).
Proof.
  unfold _cleanup_processes. cbn [for_each]. unfold cleanup_process.
  unfold_calls. keeps_auto.
Qed.

Lemma keeps_start (E : Env) : keeps_stop (start E).
Proof.
  unfold start.
  apply keeps_bind; [auto with keeps | intros r].
  apply keeps_bind; [unfold logger_log; auto with keeps | intros _].
  apply keeps_bind;
    [unfold hours_of; destruct (true_div_overflows _ _); auto with keeps | intros _].
  apply keeps_bind; [unfold logger_log; auto with keeps | intros _].
  apply keeps_bind; [unfold logger_log; auto with keeps | intros _].
  apply keeps_try_except.
  - unfold _start_dump_process, _start_ffmpeg_process. unfold_calls. keeps_auto.
  - intros e. apply keeps_bind; [apply keeps_cleanup_processes | intros _].
    apply keeps_raise.
Qed.

Lemma keeps_wait (E : Env) : keeps_stop (wait E).
Proof.
  unfold wait.
  apply keeps_bind; [auto with keeps | intros r].
  destruct (is_None (_ffmpeg_process r)); [apply keeps_raise |].
  apply keeps_try_except.
  - unfold wait_body, reap_dump, log_outcome, check_artifact. unfold_calls.
    keeps_auto.
  - intros e. unfold wait_except.
    apply keeps_bind; [apply keeps_cleanup_processes | intros _].
    apply keeps_raise.
Qed.

Lemma keeps_stop_gracefully (E : Env) : keeps_stop (stop_gracefully E).
Proof. unfold stop_gracefully. unfold_calls. keeps_auto. Qed.

Lemma keeps_signal_handler (E : Env) (signum : Z) : keeps_stop (_signal_handler E signum).
Proof.
  unfold _signal_handler.
  apply keeps_bind; [unfold logger_log; auto with keeps | intros _].
  apply keeps_stop_gracefully.
Qed.

Lemma keeps_status_reporter_body (E : Env) : keeps_stop (status_reporter_body E).
Proof. unfold status_reporter_body. unfold_calls. keeps_auto. Qed.

Lemma keeps_status_reporter_alone (E : Env) (turns : nat) :
  keeps_stop (_status_reporter E (repeat (fun r => r) turns)).
Proof.
  unfold _status_reporter.
  apply keeps_bind; [auto with keeps | intros r].
  destruct (_start_time r) as [t0 |]; [| apply keeps_ret].
  destruct (t0 =? 0); [apply keeps_ret |].
  clear r t0. induction turns as [| turns IH]; cbn [repeat status_reporter_loop].
  - apply keeps_bind; [auto with keeps | intros r].
    destruct (is_running r && negb (_stop_requested r)); apply keeps_ret.
  - apply keeps_bind; [auto with keeps | intros r].
    destruct (is_running r && negb (_stop_requested r)); [| apply keeps_ret].
    apply keeps_bind; [apply keeps_status_reporter_body | intros _].
    apply keeps_bind; [apply keeps_identity | intros _].
    exact IH.
Qed.

(** No operation of the Recorder takes back a stop request. *)
Lemma stop_request_is_final (E : Env) (op : operation) (st : St) :
  _stop_requested (self st) = true ->
  _stop_requested (self (run_operation E op st)) = true.
Proof.
  destruct op; cbn [run_operation].
  - apply keeps_start.
  - apply keeps_wait.
  - apply keeps_stop_gracefully.
  - apply keeps_signal_handler.
  - apply keeps_cleanup_processes.
  - apply keeps_status_reporter_alone.
Qed.

(** [stop_gracefully], exactly. *)
Lemma stop_gracefully_run (E : Env) (st : St) :
  let flagged := set_stop_requested true (self st) in
  let announced :=
    trace st ++ [EvLog DEBUG "Sending SIGINT to ffmpeg for graceful shutdown"] in
  stop_gracefully E st
  = if is_running (self st) then
      match os_send_signal E announced Ffmpeg SIGINT with
      | Some e =>
          (Raise e, {| self := flagged; trace := announced ++ [EvSendSignal Ffmpeg SIGINT] |})
      | None =>
          (Ok tt,
           {| self := match os_poll E announced Ffmpeg with
                      | Some c => set_returncode Ffmpeg c flagged
                      | None => flagged
                      end;
              trace := announced ++ [EvSendSignal Ffmpeg SIGINT] |})
      end
    else (Ok tt, {| self := flagged; trace := trace st |}).
Proof.
  cbv zeta. destruct st as [r tr]. unfold stop_gracefully, is_running. step.
  cbn [set_stop_requested _ffmpeg_process].
  destruct (_ffmpeg_process r) as [h |]; cbn [is_None negb andb]; step;
    [| reflexivity].
  destruct (returncode h); cbn [is_None]; step; [reflexivity |].
  destruct (os_send_signal E _ Ffmpeg SIGINT); step; [reflexivity |].
  destruct (os_poll E _ Ffmpeg); step; reflexivity.
Qed.

Lemma stop_once_trace (E : Env) (st : St) :
  trace (stop_once E st)
  = trace st ++
    (if is_running (self st)
     then [ EvLog DEBUG "Sending SIGINT to ffmpeg for graceful shutdown";
            EvSendSignal Ffmpeg SIGINT ]
     else []).
Proof.
  unfold stop_once. rewrite stop_gracefully_run. cbv zeta.
  destruct (is_running (self st)); [| cbn; rewrite app_nil_r; reflexivity].
  destruct (os_send_signal E _ Ffmpeg SIGINT); cbn [snd trace];
    rewrite <- app_assoc; reflexivity.
Qed.

Lemma stop_once_self (E : Env) (st : St) :
  self (stop_once E st) = set_stop_requested true (self st)
  \/ exists c,
       self (stop_once E st) = set_returncode Ffmpeg c (set_stop_requested true (self st)).
Proof.
  unfold stop_once. rewrite stop_gracefully_run. cbv zeta.
  destruct (is_running (self st)); [| left; reflexivity].
  destruct (os_send_signal E _ Ffmpeg SIGINT); [left; reflexivity |].
  destruct (os_poll E _ Ffmpeg) as [c |]; [right; exists c |left]; reflexivity.
Qed.

Lemma stop_once_flag (E : Env) (st : St) : _stop_requested (self (stop_once E st)) = true.
Proof.
  destruct (stop_once_self E st) as [-> | [c ->]]; [reflexivity |].
  unfold set_returncode. rewrite stop_requested_set_handle. reflexivity.
Qed.

Lemma set_stop_requested_same (r : Recorder) :
  _stop_requested r = true -> set_stop_requested true r = r.
Proof. destruct r. cbn. intros ->. reflexivity. Qed.

(** C4, as the code has it.  On the started session one call sends the
    encoder one interrupt and two calls in succession send it two: the
    second call is not without effect. *)
Lemma second_stop_signals_again :
  encoder_signals (trace started_state) = []
  /\ encoder_signals (trace (stop_once calm_env started_state)) = [SIGINT]
  /\ encoder_signals (trace (stop_twice calm_env started_state)) = [SIGINT; SIGINT]
  /\ trace (stop_twice calm_env started_state) <> trace (stop_once calm_env started_state).
Proof.
  split; [vm_compute; reflexivity |].
  split; [vm_compute; reflexivity |].
  split; [vm_compute; reflexivity |].
  intros Heq. apply (f_equal encoder_signals) in Heq.
  vm_compute in Heq. discriminate Heq.
Qed.

(** C4, amended.  One call of [stop_gracefully] sets the stop-requested flag
    and changes nothing else of the Recorder, except that the encoder handle
    takes the exit code when the poll inside [send_signal] finds the encoder
    gone; no operation of the Recorder clears the flag again.  The call is
    not idempotent: every call made while the encoder handle exists with no
    exit observed calls [send_signal] again, so the second call of two
    signals once more unless the first one found the encoder gone.  Once the
    exit is observed, a further call makes no call and changes nothing. *)
Theorem stop_gracefully_repeated (E : Env) (st : St) :
  let flagged := set_stop_requested true (self st) in
  let announced :=
    trace st ++ [EvLog DEBUG "Sending SIGINT to ffmpeg for graceful shutdown"] in
  stop_gracefully E st
  = (if is_running (self st) then
       match os_send_signal E announced Ffmpeg SIGINT with
       | Some e =>
           (Raise e,
            {| self := flagged; trace := announced ++ [EvSendSignal Ffmpeg SIGINT] |})
       | None =>
           (Ok tt,
            {| self := match os_poll E announced Ffmpeg with
                       | Some c => set_returncode Ffmpeg c flagged
                       | None => flagged
                       end;
               trace := announced ++ [EvSendSignal Ffmpeg SIGINT] |})
       end
     else (Ok tt, {| self := flagged; trace := trace st |}))
  /\ _stop_requested (self (stop_once E st)) = true
  /\ (forall op st', _stop_requested (self st') = true ->
                     _stop_requested (self (run_operation E op st')) = true)
  /\ encoder_signals (trace (stop_once E st))
     = encoder_signals (trace st) ++ (if is_running (self st) then [SIGINT] else [])
  /\ encoder_signals (trace (stop_twice E st))
     = encoder_signals (trace (stop_once E st))
       ++ (if is_running (self (stop_once E st)) then [SIGINT] else [])
  /\ (is_running (self (stop_once E st)) = false ->
      stop_gracefully E (stop_once E st) = (Ok tt, stop_once E st)).
Proof.
  cbv zeta.
  split; [apply stop_gracefully_run |].
  split; [apply stop_once_flag |].
  split; [intros op st'; apply stop_request_is_final |].
  split; [| split].
  - rewrite stop_once_trace, encoder_signals_app.
    destruct (is_running (self st)); reflexivity.
  - unfold stop_twice. rewrite (stop_once_trace E (stop_once E st)), encoder_signals_app.
    destruct (is_running (self (stop_once E st))); reflexivity.
  - intros Hgone. rewrite stop_gracefully_run. cbv zeta. rewrite Hgone.
    rewrite (set_stop_requested_same _ (stop_once_flag E st)).
    destruct (stop_once E st). reflexivity.
Qed.

Lemma stop_gracefully_repeated_witness :
  encoder_signals (trace (stop_twice calm_env started_state))
  = encoder_signals (trace (stop_once calm_env started_state)) ++ [SIGINT]
  /\ _stop_requested
       (self (run_operation calm_env OpWait (stop_once calm_env started_state))) = true
  /\ stop_gracefully calm_env (stop_once calm_env finished_state)
     = (Ok tt, stop_once calm_env finished_state).
Proof.
  destruct (stop_gracefully_repeated calm_env started_state)
    as (_ & Hset & Hfinal & _ & Htwice & _).
  destruct (stop_gracefully_repeated calm_env finished_state)
    as (_ & _ & _ & _ & _ & Hgone).
  split; [exact Htwice |].
  split; [apply Hfinal; exact Hset | apply Hgone; reflexivity].
Defined.

(** ** The status reporter *)

(** Below one hundred, [:02d] writes exactly two digits. *)
Lemma pad2_two_digits (n : Z) : 0 <= n < 100 -> pad2 n = two_digits n.
Proof.
  intros Hn.
  assert (Hall : forallb (fun k => String.eqb (pad2 (Z.of_nat k)) (two_digits (Z.of_nat k)))
                   (seq 0 100) = true) by (vm_compute; reflexivity).
  rewrite forallb_forall in Hall.
  specialize (Hall (Z.to_nat n)).
  rewrite Z2Nat.id in Hall by lia.
  apply String.eqb_eq. apply Hall. apply in_seq. lia.
Qed.

Lemma format_elapsed_time_fields (e : Z) :
  0 <= e < 360000 ->
  format_elapsed_time e
  = (two_digits (e / 3600) ++ ":" ++ two_digits (e mod 3600 / 60) ++ ":"
     ++ two_digits (e mod 3600 mod 60))%string.
Proof.
  intros He. unfold format_elapsed_time. cbv zeta.
  assert (Hr : 0 <= e mod 3600 < 3600) by (apply Z.mod_pos_bound; lia).
  rewrite (pad2_two_digits (e mod 3600 / 60)).
  2:{ split; [apply Z.div_pos; lia | apply Z.div_lt_upper_bound; lia]. }
  rewrite (pad2_two_digits (e mod 3600 mod 60)).
  2:{ pose proof (Z.mod_pos_bound (e mod 3600) 60). lia. }
  rewrite (pad2_two_digits (e / 3600)); [reflexivity |].
  split; [apply Z.div_pos; lia | apply Z.div_lt_upper_bound; lia].
Qed.






















(** * Further properties of the session *)

(** ** Reading a result backwards *)

Lemma bind_ok_inv {A B} (m : M A) (k : A -> M B) (st st2 : St) (b : B) :
  bind m k st = (Ok b, st2) ->
  exists a st1, m st = (Ok a, st1) /\ k a st1 = (Ok b, st2).
Proof.
  unfold bind. destruct (m st) as [[a | e] st1]; intros Hrun.
  - exists a, st1. split; [reflexivity | exact Hrun].
  - discriminate.
Qed.

Lemma try_except_ok_inv {A} (m : M A) (h : exn -> M A) (st st' : St) (a : A) :
  (forall e st0, exists e', fst (h e st0) = Raise e') ->
  try_except m h st = (Ok a, st') ->
  m st = (Ok a, st').
Proof.
  intros Hraises. unfold try_except.
  destruct (m st) as [[a0 | e] st1]; intros Hrun; [exact Hrun |].
  destruct (Hraises e st1) as [e' He']. rewrite Hrun in He'. discriminate.
Qed.

(** The [except] clause of [start]. *)
Lemma start_except_raises (E : Env) (msg : string) (st : St) :
  exists e', fst ((_cleanup_processes E;; @raise unit (RecordingError msg)) st) = Raise e'.
Proof.
  unfold bind, raise.
  destruct (_cleanup_processes E st) as [[[] | e'] st']; eexists; reflexivity.
Qed.

(** ** A successful launch *)

Lemma start_dump_process_ok (E : Env) (st st' : St) :
  _start_dump_process E st = (Ok tt, st') ->
  self st'
  = set_handle SystemAudioDump
      (Some (fresh_popen [str_path (dump_bin (config (self st)))])) (self st).
Proof.
  destruct st as [r tr]. unfold _start_dump_process. step.
  destruct (os_popen E _ SystemAudioDump _) as [e |]; step; [discriminate |].
  destruct (os_poll E _ SystemAudioDump) as [c |]; step.
  - cbn [handle set_returncode set_handle option_map _dump_process with_returncode
           stderr fresh_popen]. step. discriminate.
  - intros Hrun. injection Hrun as <-. reflexivity.
Qed.

Lemma start_ffmpeg_process_ok (E : Env) (st st' : St) :
  _start_ffmpeg_process E st = (Ok tt, st') ->
  self st'
  = close_stdout SystemAudioDump
      (set_handle Ffmpeg
         (Some (fresh_popen (recorder_ffmpeg_cmd (config (self st)) (output_path (self st)))))
         (self st)).
Proof.
  destruct st as [r tr]. unfold _start_ffmpeg_process. step.
  destruct (dump_stdout_available r); cbn [negb]; step; [| discriminate].
  destruct (os_popen E _ Ffmpeg _) as [e |]; step; [discriminate |].
  destruct (os_poll E _ Ffmpeg) as [c |]; step.
  - cbn [handle set_returncode close_stdout set_handle option_map _ffmpeg_process
           with_returncode stderr fresh_popen]. step. discriminate.
  - intros Hrun. injection Hrun as <-. reflexivity.
Qed.

(** X1.  Whenever [start] returns normally, whatever the Recorder was before:
    both process handles are new ones with no exit observed, so [is_running]
    holds and the capture process counts as running; the supervisor's end of
    the capture stream is closed; the start time is set; and the
    stop-requested flag is the one [start] found. *)
Theorem start_success_state (E : Env) (st : St) :
  fst (start E st) = Ok tt ->
  let r' := self (snd (start E st)) in
  is_running r' = true
  /\ _ffmpeg_process r'
     = Some (fresh_popen (recorder_ffmpeg_cmd (config (self st)) (output_path (self st))))
  /\ _dump_process r'
     = Some (with_stdout (Some {| closed := true |})
               (fresh_popen [str_path (dump_bin (config (self st)))]))
  /\ (exists t, _start_time r' = Some t)
  /\ _stop_requested r' = _stop_requested (self st).
Proof.
  intros Hok. cbv zeta.
  destruct (start E st) as [result st'] eqn:Hrun. cbn [fst snd] in *. subst result.
  unfold start in Hrun.
  apply bind_ok_inv in Hrun. destruct Hrun as (r & st0 & Hget & Hrun).
  unfold get_self in Hget. injection Hget as <- <-.
  apply bind_ok_inv in Hrun. destruct Hrun as ([] & st1 & Hlog1 & Hrun).
  apply bind_ok_inv in Hrun. destruct Hrun as ([] & st1' & Hhours & Hrun).
  apply bind_ok_inv in Hrun. destruct Hrun as ([] & st2 & Hlog2 & Hrun).
  apply bind_ok_inv in Hrun. destruct Hrun as ([] & st3 & Hlog3 & Hrun).
  unfold logger_log, emit in Hlog1, Hlog2, Hlog3.
  injection Hlog1 as <-.
  unfold hours_of in Hhours.
  destruct (true_div_overflows _ _); [discriminate |].
  unfold ret in Hhours. injection Hhours as <-.
  injection Hlog2 as <-. injection Hlog3 as <-.
  apply try_except_ok_inv in Hrun.
  2:{ intros e st0. apply start_except_raises. }
  apply bind_ok_inv in Hrun. destruct Hrun as ([] & st4 & Hdump & Hrun).
  apply bind_ok_inv in Hrun. destruct Hrun as ([] & st5 & Hffmpeg & Hrun).
  apply start_dump_process_ok in Hdump. cbn [self] in Hdump.
  apply start_ffmpeg_process_ok in Hffmpeg. rewrite Hdump in Hffmpeg.
  apply bind_ok_inv in Hrun. destruct Hrun as (now & st6 & Htime & Hrun).
  unfold time_time in Htime. unfold_monad. cbn in Htime. injection Htime as <- <-.
  apply bind_ok_inv in Hrun. destruct Hrun as ([] & st7 & Hset & Hrun).
  unfold modify_self in Hset. cbn [self trace] in Hset. injection Hset as <-.
  assert (Hself : self st'
                  = set_start_time (Some (os_time E (trace st5))) (self st5)
                    \/ self st'
                       = set_status_thread (Some tt)
                           (set_start_time (Some (os_time E (trace st5))) (self st5))).
  { destruct (negb (verbose (config (self st)))).
    - apply bind_ok_inv in Hrun. destruct Hrun as ([] & st8 & Hthread & Hrun).
      unfold modify_self in Hthread. cbn [self trace] in Hthread.
      injection Hthread as <-.
      unfold Thread_start, bind, get_trace, emit, lift_err in Hrun.
      cbn [self trace] in Hrun.
      match type of Hrun with
      | context [os_thread_start E ?t] => destruct (os_thread_start E t)
      end; [discriminate |].
      unfold ret in Hrun. injection Hrun as <-. right. reflexivity.
    - unfold ret in Hrun. injection Hrun as <-. left. reflexivity. }
  destruct Hself as [-> | ->]; rewrite Hffmpeg; destruct (self st) as [cfg out d f t s th];
    cbn; repeat split; eexists; reflexivity.
Qed.

Lemma start_success_state_witness :
  is_running (self started_state) = true
  /\ _stop_requested (self started_state) = false.
Proof.
  destruct (start_success_state calm_env fresh_state eq_refl)
    as (Hrunning & _ & _ & _ & Hstop).
  split; [exact Hrunning | exact Hstop].
Defined.

(** ** A launch that fails *)

Lemma settled_set_handle_other (p q : proc) (h : option Popen) (r : Recorder) :
  p <> q -> settled p r -> settled p (set_handle q h r).
Proof.
  intros Hneq Hs. destruct p, q; try contradiction; exact Hs.
Qed.

(** X2.  When the capture process is found dead by the poll that follows
    its launch (and the hours of the second log line can be computed),
    [start] raises the start-up error that carries the exit code and the
    very text read from the error stream of the capture process.  On a
    Recorder without a live encoder nothing else happens: the read of that
    stream is the last call, the encoder is never spawned, and the only
    change to the Recorder is the new capture handle holding the exit
    code. *)
Theorem start_fails_when_capture_dies (E : Env) (st : St) (c : Z) :
  settled Ffmpeg (self st) ->
  true_div_overflows (max_seconds (config (self st))) 3600 = false ->
  (forall tr cmd, os_popen E tr SystemAudioDump cmd = None) ->
  (forall tr, os_poll E tr SystemAudioDump = Some c) ->
  let cfg := config (self st) in
  let dump_cmd := [str_path (dump_bin cfg)] in
  let polled :=
    trace st ++
    [ EvLog INFO ("Starting recording to: " ++ str_path (output_path (self st)))%string;
      EvLog INFO
        ("Recording will auto-stop after " ++ str_int (max_seconds cfg)
         ++ " seconds (" ++ fmt_hours E (max_seconds cfg) ++ " hours)")%string;
      EvLog INFO "Press Ctrl+C to stop recording early";
      EvLog DEBUG ("Executing: " ++ join " " dump_cmd)%string;
      EvPopen SystemAudioDump dump_cmd None;
      EvSleep 100;
      EvPoll SystemAudioDump ] in
  start E st
  = (Raise (RecordingError
              ("Failed to start recording: SystemAudioDump failed to start (exit code "
               ++ str_int c ++ "): " ++ os_stderr_read E polled SystemAudioDump)%string),
     {| self := set_returncode SystemAudioDump c
                  (set_handle SystemAudioDump (Some (fresh_popen dump_cmd)) (self st));
        trace := polled ++ [EvStderrRead SystemAudioDump] |}).
Proof.
  intros Hf Hfloat Hpopen Hpoll cfg dump_cmd polled. subst cfg dump_cmd polled.
  destruct st as [r tr]. cbn [self trace] in *.
  unfold start, _start_dump_process. step.
  unfold hours_of. rewrite Hfloat. step.
  rewrite Hpopen. step. rewrite Hpoll. step.
  cbn [handle set_returncode set_handle option_map _dump_process with_returncode
         stderr fresh_popen]. step.
  unfold returncode_of.
  cbn [handle set_returncode set_handle option_map _dump_process with_returncode
         returncode str_returncode].
  match goal with
  | |- context [_cleanup_processes E ?s] =>
      rewrite (cleanup_processes_settled E s)
  end.
  - step. cbn [str_exn]. flatten_trace. reflexivity.
  - cbn [self]. exact Hf.
  - cbn [self]. right. unfold returncode_of. cbn. discriminate.
Qed.

Lemma start_fails_when_capture_dies_witness :
  fst (start dead_capture_env fresh_state)
  = Raise (RecordingError
             "Failed to start recording: SystemAudioDump failed to start (exit code 1): Screen Recording permission required")
  /\ encoder_spawns (trace (snd (start dead_capture_env fresh_state))) = [].
Proof.
  rewrite (start_fails_when_capture_dies dead_capture_env fresh_state 1
             (or_introl eq_refl) eq_refl (fun _ _ => eq_refl) (fun _ => eq_refl)).
  split; reflexivity.
Defined.

(** Cleaning up a running process whose handle is sound: it is asked to
    terminate, waited for, killed if need be, and ends up reaped. *)
Lemma cleanup_process_running_sound (E : Env) (p : proc) (st : St) (h : Popen) :
  handle p (self st) = Some h ->
  returncode h = None ->
  process_handle_sound E p ->
  exists c evs,
    cleanup_process E p st
    = (Ok tt,
       {| self := set_returncode p c (self st);
          trace := trace st ++
                   EvLog DEBUG ("Terminating " ++ proc_name p)%string ::
                   EvTerminate p :: EvWait p (Some 5) :: evs |}).
Proof.
  intros Hh Hcode (Hterminate & Hkill & Hwait & Hbounded).
  destruct st as [r tr]. cbn [self trace] in *.
  unfold cleanup_process. step. rewrite Hh, Hcode. cbn [is_None]. step.
  rewrite Hterminate. step.
  match goal with
  | |- context [os_wait E ?t p (Some 5)] =>
      destruct (Hbounded t) as [[c Hc] | [m Hm]]
  end.
  - rewrite Hc. step. flatten_trace. exists c, []. reflexivity.
  - rewrite Hm. step. rewrite Hkill. step.
    match goal with
    | |- context [os_wait E ?t p None] => destruct (Hwait t) as [c Hc]; rewrite Hc
    end.
    step. flatten_trace. eexists. eexists. reflexivity.
Qed.

(** X3.  When the encoder is found dead by the poll that follows its launch
    (the hours of the second log line can be computed and the handle of the
    capture process is sound), [start] raises the start-up error that
    carries the exit code and the very text read from the error stream of
    the encoder, and it raises only after its cleanup has asked the capture
    process to terminate, waited for it and recorded its exit: no capture
    process is left behind and [is_running] is false. *)
Theorem start_fails_when_encoder_dies (E : Env) (st : St) (c : Z) :
  true_div_overflows (max_seconds (config (self st))) 3600 = false ->
  (forall tr p cmd, os_popen E tr p cmd = None) ->
  (forall tr, os_poll E tr SystemAudioDump = None) ->
  (forall tr, os_poll E tr Ffmpeg = Some c) ->
  process_handle_sound E SystemAudioDump ->
  let cfg := config (self st) in
  let dump_cmd := [str_path (dump_bin cfg)] in
  let ffmpeg_cmd := recorder_ffmpeg_cmd cfg (output_path (self st)) in
  let polled :=
    trace st ++
    [ EvLog INFO ("Starting recording to: " ++ str_path (output_path (self st)))%string;
      EvLog INFO
        ("Recording will auto-stop after " ++ str_int (max_seconds cfg)
         ++ " seconds (" ++ fmt_hours E (max_seconds cfg) ++ " hours)")%string;
      EvLog INFO "Press Ctrl+C to stop recording early";
      EvLog DEBUG ("Executing: " ++ join " " dump_cmd)%string;
      EvPopen SystemAudioDump dump_cmd None;
      EvSleep 100;
      EvPoll SystemAudioDump;
      EvLog DEBUG ("Executing: " ++ join " " ffmpeg_cmd)%string;
      EvPopen Ffmpeg ffmpeg_cmd (Some SystemAudioDump);
      EvStdoutClose SystemAudioDump;
      EvSleep 100;
      EvPoll Ffmpeg ] in
  exists c' evs,
    start E st
    = (Raise (RecordingError
                ("Failed to start recording: ffmpeg failed to start (exit code "
                 ++ str_int c ++ "): " ++ os_stderr_read E polled Ffmpeg)%string),
       {| self :=
            set_returncode SystemAudioDump c'
              (set_returncode Ffmpeg c
                 (close_stdout SystemAudioDump
                    (set_handle Ffmpeg (Some (fresh_popen ffmpeg_cmd))
                       (set_handle SystemAudioDump (Some (fresh_popen dump_cmd))
                          (self st)))));
          trace := polled ++
                   EvStderrRead Ffmpeg ::
                   EvLog DEBUG "Terminating SystemAudioDump" ::
                   EvTerminate SystemAudioDump :: EvWait SystemAudioDump (Some 5) :: evs |})
    /\ settled SystemAudioDump (self (snd (start E st)))
    /\ is_running (self (snd (start E st))) = false.
Proof.
  intros Hfloat Hpopen Hpoll_d Hpoll_f Hsound cfg dump_cmd ffmpeg_cmd polled.
  subst cfg dump_cmd ffmpeg_cmd polled.
  assert (Hrun : exists c' evs,
            start E st
            = (Raise (RecordingError
                        ("Failed to start recording: ffmpeg failed to start (exit code "
                         ++ str_int c ++ "): "
                         ++ os_stderr_read E
                              (trace st ++
                               [ EvLog INFO
                                   ("Starting recording to: "
                                    ++ str_path (output_path (self st)))%string;
                                 EvLog INFO
                                   ("Recording will auto-stop after "
                                    ++ str_int (max_seconds (config (self st)))
                                    ++ " seconds ("
                                    ++ fmt_hours E (max_seconds (config (self st)))
                                    ++ " hours)")%string;
                                 EvLog INFO "Press Ctrl+C to stop recording early";
                                 EvLog DEBUG
                                   ("Executing: "
                                    ++ join " " [str_path (dump_bin (config (self st)))])%string;
                                 EvPopen SystemAudioDump
                                   [str_path (dump_bin (config (self st)))] None;
                                 EvSleep 100;
                                 EvPoll SystemAudioDump;
                                 EvLog DEBUG
                                   ("Executing: "
                                    ++ join " "
                                         (recorder_ffmpeg_cmd (config (self st))
                                            (output_path (self st))))%string;
                                 EvPopen Ffmpeg
                                   (recorder_ffmpeg_cmd (config (self st))
                                      (output_path (self st)))
                                   (Some SystemAudioDump);
                                 EvStdoutClose SystemAudioDump;
                                 EvSleep 100;
                                 EvPoll Ffmpeg ]) Ffmpeg)%string),
               {| self :=
                    set_returncode SystemAudioDump c'
                      (set_returncode Ffmpeg c
                         (close_stdout SystemAudioDump
                            (set_handle Ffmpeg
                               (Some (fresh_popen
                                        (recorder_ffmpeg_cmd (config (self st))
                                           (output_path (self st)))))
                               (set_handle SystemAudioDump
                                  (Some (fresh_popen
                                           [str_path (dump_bin (config (self st)))]))
                                  (self st)))));
                  trace := (trace st ++
                            [ EvLog INFO
                                ("Starting recording to: "
                                 ++ str_path (output_path (self st)))%string;
                              EvLog INFO
                                ("Recording will auto-stop after "
                                 ++ str_int (max_seconds (config (self st)))
                                 ++ " seconds ("
                                 ++ fmt_hours E (max_seconds (config (self st)))
                                 ++ " hours)")%string;
                              EvLog INFO "Press Ctrl+C to stop recording early";
                              EvLog DEBUG
                                ("Executing: "
                                 ++ join " " [str_path (dump_bin (config (self st)))])%string;
                              EvPopen SystemAudioDump
                                [str_path (dump_bin (config (self st)))] None;
                              EvSleep 100;
                              EvPoll SystemAudioDump;
                              EvLog DEBUG
                                ("Executing: "
                                 ++ join " "
                                      (recorder_ffmpeg_cmd (config (self st))
                                         (output_path (self st))))%string;
                              EvPopen Ffmpeg
                                (recorder_ffmpeg_cmd (config (self st))
                                   (output_path (self st)))
                                (Some SystemAudioDump);
                              EvStdoutClose SystemAudioDump;
                              EvSleep 100;
                              EvPoll Ffmpeg ]) ++
                           EvStderrRead Ffmpeg ::
                           EvLog DEBUG "Terminating SystemAudioDump" ::
                           EvTerminate SystemAudioDump ::
                           EvWait SystemAudioDump (Some 5) :: evs |})).
  { destruct st as [r tr]. cbn [self trace] in *.
    unfold start, _start_dump_process, _start_ffmpeg_process. step.
    unfold hours_of. rewrite Hfloat. step.
    rewrite Hpopen. step. rewrite Hpoll_d. step.
    cbn [dump_stdout_available set_handle _dump_process fresh_popen stdout is_None negb].
    step. rewrite Hpopen. step. rewrite Hpoll_f. step.
    cbn [handle set_returncode close_stdout set_handle option_map _ffmpeg_process
           _dump_process with_returncode with_stdout stderr stdout fresh_popen]. step.
    unfold returncode_of.
    cbn [handle _ffmpeg_process returncode str_returncode].
    unfold _cleanup_processes. cbn [for_each]. unfold bind at 1.
    match goal with
    | |- context [cleanup_process E Ffmpeg ?s] =>
        rewrite (cleanup_process_settled E Ffmpeg s)
          by (right; unfold returncode_of; cbn; discriminate)
    end.
    unfold bind at 1.
    match goal with
    | |- context [cleanup_process E SystemAudioDump ?s] =>
        destruct (cleanup_process_running_sound E SystemAudioDump s
                    (with_stdout (Some {| closed := true |})
                       (fresh_popen [str_path (dump_bin (config r))])))
          as (c' & evs & Hclean)
    end; [reflexivity | reflexivity | exact Hsound |].
    rewrite Hclean. step. cbn [str_exn proc_name].
    exists c', evs. flatten_trace. reflexivity. }
  destruct Hrun as (c' & evs & Hrun). exists c', evs.
  rewrite Hrun. cbn [fst snd self].
  split; [reflexivity |].
  split; [apply settled_set_returncode | reflexivity].
Qed.

Lemma dead_encoder_capture_sound : process_handle_sound dead_encoder_env SystemAudioDump.
Proof.
  repeat split; intros tr; try (exists 0; reflexivity).
  left. exists 0. reflexivity.
Defined.

Lemma start_fails_when_encoder_dies_witness :
  fst (start dead_encoder_env fresh_state)
  = Raise (RecordingError
             "Failed to start recording: ffmpeg failed to start (exit code 1): Unknown encoder 'libmp3lame'")
  /\ is_running (self (snd (start dead_encoder_env fresh_state))) = false.
Proof.
  destruct (start_fails_when_encoder_dies dead_encoder_env fresh_state 1
              eq_refl (fun _ _ _ => eq_refl) (fun _ => eq_refl) (fun _ => eq_refl)
              dead_encoder_capture_sound)
    as (c' & evs & Hrun & _ & Hstopped).
  split; [rewrite Hrun; reflexivity | exact Hstopped].
Defined.

(** ** The cleanup of both processes *)

Lemma settled_or_live (p : proc) (r : Recorder) :
  settled p r \/ exists h, handle p r = Some h /\ returncode h = None.
Proof.
  unfold settled, returncode_of.
  destruct (handle p r) as [h |]; [| left; left; reflexivity].
  destruct (returncode h) eqn:Hcode.
  - left. right. discriminate.
  - right. exists h. split; [reflexivity | exact Hcode].
Qed.

Lemma cleanup_process_sound (E : Env) (p : proc) (st : St) :
  process_handle_sound E p ->
  exists st',
    cleanup_process E p st = (Ok tt, st')
    /\ settled p (self st')
    /\ (forall q, settled q (self st) -> settled q (self st')).
Proof.
  intros Hsound. destruct (settled_or_live p (self st)) as [Hs | (h & Hh & Hcode)].
  - exists st. rewrite (cleanup_process_settled E p st Hs). auto.
  - destruct (cleanup_process_running_sound E p st h Hh Hcode Hsound)
      as (c & evs & Hrun).
    eexists. split; [exact Hrun |]. cbn [self].
    split; [apply settled_set_returncode | intros q; apply settled_other].
Qed.

(** X4.  With sound process handles [_cleanup_processes] returns normally
    and leaves no process behind: the exit of each process that had a handle
    has been observed.  Running it once more makes no call at all. *)
Theorem cleanup_leaves_no_process (E : Env) (st : St) :
  process_handle_sound E Ffmpeg ->
  process_handle_sound E SystemAudioDump ->
  let st' := snd (_cleanup_processes E st) in
  fst (_cleanup_processes E st) = Ok tt
  /\ settled Ffmpeg (self st')
  /\ settled SystemAudioDump (self st')
  /\ is_running (self st') = false
  /\ _cleanup_processes E st' = (Ok tt, st').
Proof.
  intros Hf Hd. cbv zeta.
  destruct (cleanup_process_sound E Ffmpeg st Hf) as (st1 & Hrun1 & Hs1 & _).
  destruct (cleanup_process_sound E SystemAudioDump st1 Hd) as (st2 & Hrun2 & Hs2 & Hkeep).
  assert (Hrun : _cleanup_processes E st = (Ok tt, st2)).
  { unfold _cleanup_processes. cbn [for_each]. unfold bind.
    rewrite Hrun1, Hrun2. reflexivity. }
  rewrite Hrun. cbn [fst snd].
  pose proof (Hkeep Ffmpeg Hs1) as Hf2.
  split; [reflexivity |]. split; [exact Hf2 |]. split; [exact Hs2 |].
  split; [| apply cleanup_processes_settled; assumption].
  unfold is_running. unfold settled, returncode_of in Hf2. cbn [handle] in Hf2.
  destruct (_ffmpeg_process (self st2)) as [h |]; [| reflexivity].
  destruct Hf2 as [Habs | Hcode]; [discriminate |].
  destruct (returncode h); [reflexivity | contradiction].
Qed.

Lemma calm_handle_sound (p : proc) : process_handle_sound calm_env p.
Proof.
  repeat split; intros tr; try (exists 0; reflexivity).
  left. exists 0. reflexivity.
Defined.

Lemma cleanup_leaves_no_process_witness :
  settled Ffmpeg (self (snd (_cleanup_processes calm_env started_state)))
  /\ settled SystemAudioDump (self (snd (_cleanup_processes calm_env started_state))).
Proof.
  destruct (cleanup_leaves_no_process calm_env started_state
              (calm_handle_sound Ffmpeg) (calm_handle_sound SystemAudioDump))
    as (_ & Hf & Hd & _).
  split; assumption.
Defined.

(** X5.  An error raised by [kill] is not handled: when the encoder outlives
    the 5-second wait and killing it fails, [_cleanup_processes] raises that
    error at once, the encoder is not waited for again, and the capture
    process is not touched at all. *)
Theorem cleanup_stops_at_failed_kill (E : Env) (st : St) (h : Popen) (e : exn) :
  _ffmpeg_process (self st) = Some h ->
  returncode h = None ->
  (forall tr, os_terminate E tr Ffmpeg = None) ->
  (forall tr, exists m, os_wait E tr Ffmpeg (Some 5) = Raise (TimeoutExpired m)) ->
  (forall tr, os_kill E tr Ffmpeg = Some e) ->
  _cleanup_processes E st
  = (Raise e,
     {| self := self st;
        trace := trace st ++
                 [ EvLog DEBUG "Terminating ffmpeg";
                   EvTerminate Ffmpeg;
                   EvWait Ffmpeg (Some 5);
                   EvLog DEBUG "Killing ffmpeg after timeout";
                   EvKill Ffmpeg ] |}).
Proof.
  intros Hh Hcode Hterminate Hwait Hkill. destruct st as [r tr]. cbn [self trace] in *.
  unfold _cleanup_processes. cbn [for_each]. unfold cleanup_process at 1. step.
  cbn [handle]. rewrite Hh, Hcode. cbn [is_None]. step.
  rewrite Hterminate. step.
  match goal with
  | |- context [os_wait E ?t Ffmpeg (Some 5)] => destruct (Hwait t) as [m Hm]; rewrite Hm
  end.
  step. rewrite Hkill. step. flatten_trace. reflexivity.
Qed.

Lemma cleanup_stops_at_failed_kill_witness :
  fst (_cleanup_processes unkillable_encoder_env started_state)
  = Raise (OtherException "[Errno 1] Operation not permitted").
Proof.
  rewrite (cleanup_stops_at_failed_kill unkillable_encoder_env started_state
             (fresh_popen (recorder_ffmpeg_cmd sample_config sample_path))
             (OtherException "[Errno 1] Operation not permitted")
             eq_refl eq_refl (fun _ => eq_refl)
             (fun _ => ex_intro _ "timed out after 5 seconds"%string eq_refl)
             (fun _ => eq_refl)).
  reflexivity.
Defined.

(** ** What a normal return of [wait] means *)

Lemma reap_dump_ok_inv (E : Env) (st st' : St) :
  reap_dump E st = (Ok tt, st') ->
  (settled SystemAudioDump (self st) /\ self st' = self st)
  \/ exists c, self st' = set_returncode SystemAudioDump c (self st).
Proof.
  destruct (settled_or_live SystemAudioDump (self st)) as [Hs | (d & Hd & Hcode)].
  - rewrite (reap_dump_settled E st Hs). intros Hrun. injection Hrun as <-.
    left. split; [exact Hs | reflexivity].
  - destruct st as [r tr]. cbn [self trace handle] in *.
    unfold reap_dump. step. rewrite Hd, Hcode. cbn [is_None]. step.
    destruct (os_terminate E _ SystemAudioDump); step; [discriminate |].
    destruct (os_wait E _ SystemAudioDump (Some 5)) as [c | [m | m | m]]; step;
      try discriminate.
    + intros Hrun. injection Hrun as <-. right. exists c. reflexivity.
    + destruct (os_kill E _ SystemAudioDump); step; [discriminate |].
      destruct (os_wait E _ SystemAudioDump None) as [c | e]; step; [| discriminate].
      intros Hrun. injection Hrun as <-. right. exists c. reflexivity.
Qed.

Lemma check_artifact_ok_inv (E : Env) (c c' : Z) (st st' : St) :
  check_artifact E c st = (Ok c', st') -> c' = c /\ self st' = self st.
Proof.
  destruct st as [r tr]. unfold check_artifact. step.
  destruct (os_exists E _ _); cbn [negb]; step; [| discriminate].
  destruct (os_st_size E _ _); step; [| discriminate].
  intros Hrun. injection Hrun as <- <-. split; reflexivity.
Qed.

(** X6.  Whenever [wait] returns normally, whatever the environment did: the
    value returned is the exit code now held by the encoder handle, the exit
    of the capture process (if it has a handle) has been observed as well,
    and [is_running] is false. *)
Theorem wait_return_means_reaped (E : Env) (st : St) (c : Z) :
  fst (wait E st) = Ok c ->
  returncode_of Ffmpeg (self (snd (wait E st))) = Some c
  /\ settled SystemAudioDump (self (snd (wait E st)))
  /\ is_running (self (snd (wait E st))) = false.
Proof.
  intros Hok.
  destruct (wait E st) as [result st'] eqn:Hrun. cbn [fst snd] in *. subst result.
  unfold wait in Hrun.
  apply bind_ok_inv in Hrun. destruct Hrun as (r & st0 & Hget & Hrun).
  unfold get_self in Hget. injection Hget as <- <-.
  destruct (_ffmpeg_process (self st)) as [fp |] eqn:Hfp; cbn [is_None] in Hrun;
    [| discriminate].
  apply try_except_ok_inv in Hrun; [| intros e st0; apply wait_except_raises].
  unfold wait_body in Hrun.
  apply bind_ok_inv in Hrun. destruct Hrun as (c0 & st1 & Hwait & Hrun).
  apply bind_ok_inv in Hrun. destruct Hrun as ([] & st2 & Hreap & Hrun).
  apply bind_ok_inv in Hrun. destruct Hrun as ([] & st3 & Hlog & Hrun).
  apply check_artifact_ok_inv in Hrun. destruct Hrun as [-> Hself3].
  destruct (log_outcome_run E c0 st2) as (evs & Hlog' & _).
  rewrite Hlog' in Hlog. injection Hlog as <-. cbn [self] in Hself3.
  assert (Hself1 : self st1 = set_returncode Ffmpeg c0 (self st)).
  { revert Hwait. unfold Popen_wait. unfold_monad. cbn [self trace].
    destruct (os_wait E (trace st) Ffmpeg None); [| discriminate].
    intros Hwait. injection Hwait as <- <-. reflexivity. }
  assert (Hf1 : returncode_of Ffmpeg (self st1) = Some c0).
  { rewrite Hself1. unfold returncode_of. cbn. rewrite Hfp. reflexivity. }
  assert (Hboth : returncode_of Ffmpeg (self st2) = Some c0
                  /\ settled SystemAudioDump (self st2)).
  { destruct (reap_dump_ok_inv E st1 st2 Hreap) as [[Hs Hsame] | [c' Hset]].
    - rewrite Hsame. split; assumption.
    - rewrite Hset. split; [exact Hf1 | apply settled_set_returncode]. }
  rewrite Hself3. destruct Hboth as [Hf2 Hd2].
  split; [exact Hf2 |]. split; [exact Hd2 |].
  unfold is_running. unfold returncode_of in Hf2. cbn [handle] in Hf2.
  destruct (_ffmpeg_process (self st2)) as [h |]; [| reflexivity].
  rewrite Hf2. reflexivity.
Qed.

Lemma wait_return_means_reaped_witness :
  returncode_of Ffmpeg (self finished_state) = Some 0
  /\ settled SystemAudioDump (self finished_state)
  /\ is_running (self finished_state) = false.
Proof.
  exact (wait_return_means_reaped calm_env started_state 0 eq_refl).
Defined.

(** ** The signal handler and a refused signal *)

(** X7.  Whichever signal number the handler receives, it logs one debug
    line and then does what [stop_gracefully] does.  The stop-requested
    flag is set in every case.  When [is_running] is false nothing else
    happens.  When it is true the handler announces and sends one interrupt
    signal to the encoder: a refused signal is raised out of the handler;
    otherwise the handler returns, and where the poll made by the sending of
    the signal finds the encoder already exited, its exit code has been
    recorded on the handle.  No process is terminated, killed or waited
    for, and the received signal itself is never forwarded. *)
Theorem signal_handler_only_requests_stop (E : Env) (signum : Z) (st : St) :
  let received :=
    trace st ++
    [EvLog DEBUG ("Received signal " ++ str_int signum ++ ", stopping recording")%string] in
  let announced :=
    received ++ [EvLog DEBUG "Sending SIGINT to ffmpeg for graceful shutdown"] in
  let flagged := set_stop_requested true (self st) in
  _signal_handler E signum st
  = if is_running (self st) then
      match os_send_signal E announced Ffmpeg SIGINT with
      | Some e =>
          (Raise e,
           {| self := flagged; trace := announced ++ [EvSendSignal Ffmpeg SIGINT] |})
      | None =>
          (Ok tt,
           {| self := match os_poll E announced Ffmpeg with
                      | Some c => set_returncode Ffmpeg c flagged
                      | None => flagged
                      end;
              trace := announced ++ [EvSendSignal Ffmpeg SIGINT] |})
      end
    else (Ok tt, {| self := flagged; trace := received |}).
Proof.
  intros received announced flagged. subst received announced flagged.
  unfold _signal_handler, bind, logger_log, emit. cbn [self trace].
  rewrite stop_gracefully_run. cbn [self trace]. reflexivity.
Qed.

(** X8.  [stop_gracefully] sets the stop-requested flag before it signals:
    when the encoder is live and sending the interrupt fails, the error
    reaches the caller, and the flag is set all the same. *)
Theorem stop_gracefully_keeps_flag_when_signal_fails (E : Env) (st : St) (e : exn) :
  is_running (self st) = true ->
  os_send_signal E
    (trace st ++ [EvLog DEBUG "Sending SIGINT to ffmpeg for graceful shutdown"])
    Ffmpeg SIGINT = Some e ->
  stop_gracefully E st
  = (Raise e,
     {| self := set_stop_requested true (self st);
        trace := trace st ++
                 [ EvLog DEBUG "Sending SIGINT to ffmpeg for graceful shutdown";
                   EvSendSignal Ffmpeg SIGINT ] |}).
Proof.
  intros Hrunning Hsignal. destruct st as [r tr]. cbn [self trace] in *.
  unfold is_running in Hrunning.
  unfold stop_gracefully. step. cbn [set_stop_requested _ffmpeg_process].
  destruct (_ffmpeg_process r) as [h |]; [| discriminate].
  cbn [is_None negb andb] in Hrunning. rewrite Hrunning. step.
  rewrite Hsignal. step. flatten_trace. reflexivity.
Qed.

Lemma stop_gracefully_keeps_flag_when_signal_fails_witness :
  fst (stop_gracefully unsignalable_env started_state)
  = Raise (OtherException "[Errno 1] Operation not permitted")
  /\ _stop_requested (self (snd (stop_gracefully unsignalable_env started_state))) = true.
Proof.
  rewrite (stop_gracefully_keeps_flag_when_signal_fails unsignalable_env started_state
             (OtherException "[Errno 1] Operation not permitted") eq_refl eq_refl).
  split; reflexivity.
Defined.

(** ** The reason of the stop *)






(** ** The calls of a successful launch *)

(** X10.  When the hours of the second log line can be computed, both
    launches succeed, both children are alive when polled and the thread can
    be started, [start] returns normally after making
    exactly these calls in this order: three lines for the user, the capture
    process spawned with its path as only argument and no input, a pause and
    a poll, the encoder spawned on the output of the capture process, the
    close of the capture stream, a pause and a poll, one reading of the
    clock, and, unless the configuration is verbose, the start of the status
    thread.  In verbose mode no thread is started. *)
Theorem start_calls_in_order (E : Env) (st : St) :
  true_div_overflows (max_seconds (config (self st))) 3600 = false ->
  (forall tr p cmd, os_popen E tr p cmd = None) ->
  (forall tr p, os_poll E tr p = None) ->
  (forall tr, os_thread_start E tr = None) ->
  let cfg := config (self st) in
  let dump_cmd := [str_path (dump_bin cfg)] in
  let ffmpeg_cmd := recorder_ffmpeg_cmd cfg (output_path (self st)) in
  fst (start E st) = Ok tt
  /\ trace (snd (start E st))
     = trace st ++
       [ EvLog INFO ("Starting recording to: " ++ str_path (output_path (self st)))%string;
         EvLog INFO
           ("Recording will auto-stop after " ++ str_int (max_seconds cfg)
            ++ " seconds (" ++ fmt_hours E (max_seconds cfg) ++ " hours)")%string;
         EvLog INFO "Press Ctrl+C to stop recording early";
         EvLog DEBUG ("Executing: " ++ join " " dump_cmd)%string;
         EvPopen SystemAudioDump dump_cmd None;
         EvSleep 100;
         EvPoll SystemAudioDump;
         EvLog DEBUG ("Executing: " ++ join " " ffmpeg_cmd)%string;
         EvPopen Ffmpeg ffmpeg_cmd (Some SystemAudioDump);
         EvStdoutClose SystemAudioDump;
         EvSleep 100;
         EvPoll Ffmpeg;
         EvTime ] ++
       (if verbose cfg then [] else [EvThreadStart])
  /\ _status_thread (self (snd (start E st)))
     = (if verbose cfg then _status_thread (self st) else Some tt).
Proof.
  intros Hfloat Hpopen Hpoll Hthread cfg dump_cmd ffmpeg_cmd.
  subst cfg dump_cmd ffmpeg_cmd. destruct st as [r tr]. cbn [self trace] in *.
  unfold start, _start_dump_process, _start_ffmpeg_process. step.
  unfold hours_of. rewrite Hfloat. step.
  rewrite Hpopen. step. rewrite Hpoll. step.
  cbn [dump_stdout_available set_handle _dump_process fresh_popen stdout is_None negb].
  step. rewrite Hpopen. step. rewrite Hpoll. step.
  cbn [close_stdout set_handle config output_path handle _dump_process option_map].
  destruct (verbose (config r)); cbn [negb]; step.
  - flatten_trace. split; [reflexivity |]. split; reflexivity.
  - rewrite Hthread. step. flatten_trace. split; [reflexivity |]. split; reflexivity.
Qed.

Lemma start_calls_in_order_witness :
  fst (start calm_env fresh_state) = Ok tt
  /\ _status_thread (self started_state) = Some tt.
Proof.
  destruct (start_calls_in_order calm_env fresh_state eq_refl
              (fun _ _ _ => eq_refl) (fun _ _ => eq_refl) (fun _ => eq_refl))
    as (Hok & _ & Hthread).
  split; [exact Hok | exact Hthread].
Defined.

(** ** A duration too large for the second line *)

(** X21.  When [max_seconds / 3600] is too large for a float, [start] stops
    at the second line: the first line is written, the error of the
    division reaches the caller as it is, not as a [RecordingError], and
    nothing else happens: no process is spawned, no cleanup runs and the
    Recorder is unchanged. *)
Theorem start_overflow_escapes (E : Env) (st : St) :
  true_div_overflows (max_seconds (config (self st))) 3600 = true ->
  start E st
  = (Raise (OtherException "integer division result too large for a float"),
     {| self := self st;
        trace := trace st ++
                 [EvLog INFO
                    ("Starting recording to: " ++ str_path (output_path (self st)))%string] |}).
Proof.
  intros Hfloat. destruct st as [r tr]. cbn [self trace] in *.
  unfold start. step. unfold hours_of. rewrite Hfloat. reflexivity.
Qed.

Lemma start_overflow_escapes_witness :
  fst (start calm_env (__init__ endless_config sample_path []))
  = Raise (OtherException "integer division result too large for a float").
Proof.
  rewrite (start_overflow_escapes calm_env (__init__ endless_config sample_path []));
    [reflexivity | vm_compute; reflexivity].
Defined.

(** * Further properties of log.py and paths.py *)

(** ** Elapsed times are told apart *)

Lemma two_digits_decode (n : Z) :
  0 <= n < 100 ->
  10 * digit_value (digit (n / 10)) + digit_value (digit (n mod 10)) = n.
Proof.
  intros Hn.
  assert (Hall : forallb
                   (fun k => let z := Z.of_nat k in
                             10 * digit_value (digit (z / 10))
                             + digit_value (digit (z mod 10)) =? z)
                   (seq 0 100) = true) by (vm_compute; reflexivity).
  rewrite forallb_forall in Hall.
  specialize (Hall (Z.to_nat n)). cbv zeta in Hall.
  rewrite Z2Nat.id in Hall by lia.
  apply Z.eqb_eq. apply Hall. apply in_seq. lia.
Qed.

Lemma decode_format_elapsed_time (e : Z) :
  0 <= e < 360000 -> decode_hms (format_elapsed_time e) = Some e.
Proof.
  intros He. rewrite (format_elapsed_time_fields e He).
  unfold two_digits. cbn [append decode_hms].
  assert (Hr : 0 <= e mod 3600 < 3600) by (apply Z.mod_pos_bound; lia).
  rewrite (two_digits_decode (e / 3600))
    by (split; [apply Z.div_pos; lia | apply Z.div_lt_upper_bound; lia]).
  rewrite (two_digits_decode (e mod 3600 / 60))
    by (split; [apply Z.div_pos; lia | apply Z.div_lt_upper_bound; lia]).
  rewrite (two_digits_decode (e mod 3600 mod 60))
    by (pose proof (Z.mod_pos_bound (e mod 3600) 60); lia).
  f_equal.
  pose proof (Z.div_mod e 3600). pose proof (Z.div_mod (e mod 3600) 60). lia.
Qed.

(** X11.  Below one hundred hours [format_elapsed_time] writes exactly eight
    characters, and it loses nothing: two different elapsed times are never
    written the same way. *)
Theorem format_elapsed_time_injective (a b : Z) :
  0 <= a < 360000 ->
  0 <= b < 360000 ->
  String.length (format_elapsed_time a) = 8%nat
  /\ (format_elapsed_time a = format_elapsed_time b -> a = b).
Proof.
  intros Ha Hb. split.
  - rewrite (format_elapsed_time_fields a Ha). reflexivity.
  - intros Heq. apply (f_equal decode_hms) in Heq.
    rewrite (decode_format_elapsed_time a Ha), (decode_format_elapsed_time b Hb) in Heq.
    injection Heq as ->. reflexivity.
Qed.

Lemma format_elapsed_time_injective_witness :
  String.length (format_elapsed_time 3725) = 8%nat
  /\ (format_elapsed_time 3725 = format_elapsed_time 9000 -> 3725 = 9000).
Proof.
  apply (format_elapsed_time_injective 3725 9000); lia.
Defined.

(** ** Sanitized titles *)

Lemma string_forall_impl (P Q : ascii -> bool) (s : string) :
  (forall c, P c = true -> Q c = true) ->
  string_forall P s = true -> string_forall Q s = true.
Proof.
  intros Himpl. induction s as [| c s IH]; cbn; [reflexivity |].
  rewrite !andb_true_iff. intros [Hc Hs]. split; [apply Himpl, Hc | apply IH, Hs].
Qed.

Lemma remove_unsafe_kept (s : string) :
  string_forall (fun c => is_word_char c || is_whitespace_char c || is_hyphen c)
    (remove_unsafe s) = true.
Proof.
  induction s as [| c s IH]; cbn; [reflexivity |].
  destruct (is_word_char c || is_whitespace_char c || is_hyphen c) eqn:Hc;
    [cbn; rewrite Hc, IH; reflexivity | exact IH].
Qed.

Lemma is_hyphen_char : is_hyphen "-" = true.
Proof. reflexivity. Qed.

Lemma collapse_separators_kept (s : string) (in_run : bool) :
  string_forall (fun c => is_word_char c || is_whitespace_char c || is_hyphen c) s = true ->
  string_forall (fun c => is_word_char c || is_hyphen c)
    (collapse_separators in_run s) = true.
Proof.
  revert in_run. induction s as [| c s IH]; intros in_run; cbn; [reflexivity |].
  rewrite andb_true_iff. intros [Hc Hs].
  destruct (is_hyphen c || is_whitespace_char c) eqn:Hsep.
  - destruct in_run; [apply IH, Hs |].
    cbn. rewrite (IH true Hs). rewrite orb_true_r. reflexivity.
  - apply orb_false_iff in Hsep. destruct Hsep as [Hh Hw].
    cbn. rewrite (IH false Hs). rewrite Hw, Hh in Hc. rewrite Hh.
    rewrite !orb_false_r in *. rewrite Hc. reflexivity.
Qed.

Lemma lstrip_hyphens_forall (P : ascii -> bool) (s : string) :
  string_forall P s = true -> string_forall P (lstrip_hyphens s) = true.
Proof.
  induction s as [| c s IH]; cbn; [reflexivity |].
  rewrite andb_true_iff. intros [Hc Hs].
  destruct (is_hyphen c); [apply IH, Hs |]. cbn. rewrite Hc, Hs. reflexivity.
Qed.

Lemma rstrip_hyphens_forall (P : ascii -> bool) (s : string) :
  string_forall P s = true -> string_forall P (rstrip_hyphens s) = true.
Proof.
  induction s as [| c s IH]; cbn; [reflexivity |].
  rewrite andb_true_iff. intros [Hc Hs]. specialize (IH Hs).
  destruct (rstrip_hyphens s) as [| c' r].
  - destruct (is_hyphen c); cbn; [reflexivity | rewrite Hc; reflexivity].
  - cbn in *. rewrite Hc, IH. reflexivity.
Qed.

Lemma lower_char_safe (c : ascii) :
  is_word_char c || is_hyphen c = true -> is_filename_safe (lower_char c) = true.
Proof.
  destruct c as [[] [] [] [] [] [] [] []]; vm_compute; intros H;
    first [reflexivity | discriminate H].
Qed.

Lemma lower_safe (s : string) :
  string_forall (fun c => is_word_char c || is_hyphen c) s = true ->
  string_forall is_filename_safe (lower s) = true.
Proof.
  induction s as [| c s IH]; cbn; [reflexivity |].
  rewrite andb_true_iff. intros [Hc Hs].
  rewrite (lower_char_safe c Hc), (IH Hs). reflexivity.
Qed.

Lemma sanitize_title_safe (title : string) :
  string_forall is_filename_safe (sanitize_title title) = true.
Proof.
  unfold sanitize_title, strip_hyphens. cbv zeta.
  apply lower_safe, rstrip_hyphens_forall, lstrip_hyphens_forall.
  apply collapse_separators_kept, remove_unsafe_kept.
Qed.

(** X12.  For a title of ASCII characters, every character of the sanitized
    title is a lower-case letter, a digit, an underscore or a hyphen: no
    path separator, dot, space or upper-case letter survives. *)
Theorem sanitize_title_alphabet (title : string) :
  ascii_only title = true ->
  string_forall is_filename_safe (sanitize_title title) = true.
Proof.
  intros _. apply sanitize_title_safe.
Qed.

Lemma sanitize_title_alphabet_witness :
  string_forall is_filename_safe (sanitize_title "../Focus Music (v2).mp3") = true.
Proof.
  apply (sanitize_title_alphabet "../Focus Music (v2).mp3"). reflexivity.
Defined.

Lemma adjacent_hyphens_weaken (previous : bool) (s : string) :
  adjacent_hyphens previous s = false -> adjacent_hyphens false s = false.
Proof.
  destruct s as [| c s]; cbn; [reflexivity |].
  rewrite orb_false_iff. intros [_ H]. exact H.
Qed.

Lemma collapse_separators_no_adjacent (s : string) (in_run previous : bool) :
  (previous = true -> in_run = true) ->
  adjacent_hyphens previous (collapse_separators in_run s) = false.
Proof.
  revert in_run previous. induction s as [| c s IH]; intros in_run previous Hrun; cbn;
    [reflexivity |].
  destruct (is_hyphen c || is_whitespace_char c) eqn:Hsep.
  - destruct in_run.
    + apply IH. reflexivity.
    + destruct previous; [specialize (Hrun eq_refl); discriminate |].
      cbn. apply IH. reflexivity.
  - apply orb_false_iff in Hsep. destruct Hsep as [Hh _].
    cbn. rewrite Hh, andb_false_r. cbn. apply IH. discriminate.
Qed.

Lemma lstrip_hyphens_no_adjacent (s : string) :
  adjacent_hyphens false s = false -> adjacent_hyphens false (lstrip_hyphens s) = false.
Proof.
  induction s as [| c s IH]; cbn; [reflexivity |].
  intros H. destruct (is_hyphen c) eqn:Hc.
  - apply IH. exact (adjacent_hyphens_weaken _ _ H).
  - cbn. rewrite Hc. exact H.
Qed.

Lemma rstrip_hyphens_no_adjacent (s : string) (previous : bool) :
  adjacent_hyphens previous s = false ->
  adjacent_hyphens previous (rstrip_hyphens s) = false.
Proof.
  revert previous. induction s as [| c s IH]; intros previous; cbn; [reflexivity |].
  rewrite orb_false_iff. intros [Hc Hs]. specialize (IH _ Hs).
  destruct (rstrip_hyphens s) as [| c' r].
  - destruct (is_hyphen c) eqn:Hh; cbn; [reflexivity |].
    rewrite Hh, andb_false_r. reflexivity.
  - cbn [adjacent_hyphens]. rewrite Hc. exact IH.
Qed.

Lemma is_hyphen_lower_char (c : ascii) : is_hyphen (lower_char c) = is_hyphen c.
Proof.
  destruct c as [[] [] [] [] [] [] [] []]; vm_compute; reflexivity.
Qed.

Lemma lower_adjacent_hyphens (s : string) (previous : bool) :
  adjacent_hyphens previous (lower s) = adjacent_hyphens previous s.
Proof.
  revert previous. induction s as [| c s IH]; intros previous; cbn; [reflexivity |].
  rewrite is_hyphen_lower_char, IH. reflexivity.
Qed.

Lemma lstrip_hyphens_start (s : string) : starts_with_hyphen (lstrip_hyphens s) = false.
Proof.
  induction s as [| c s IH]; cbn; [reflexivity |].
  destruct (is_hyphen c) eqn:Hc; [exact IH | cbn; exact Hc].
Qed.

Lemma rstrip_hyphens_start (s : string) :
  starts_with_hyphen s = false -> starts_with_hyphen (rstrip_hyphens s) = false.
Proof.
  destruct s as [| c s]; cbn; [reflexivity |].
  intros Hc. rewrite Hc. destruct (rstrip_hyphens s); cbn; exact Hc.
Qed.

Lemma rstrip_hyphens_end (s : string) : ends_with_hyphen (rstrip_hyphens s) = false.
Proof.
  induction s as [| c s IH]; cbn; [reflexivity |].
  destruct (rstrip_hyphens s) as [| c' r].
  - destruct (is_hyphen c) eqn:Hc; cbn; [reflexivity | exact Hc].
  - cbn [ends_with_hyphen] in *. exact IH.
Qed.

Lemma lower_start (s : string) : starts_with_hyphen (lower s) = starts_with_hyphen s.
Proof. destruct s; cbn; [reflexivity | apply is_hyphen_lower_char]. Qed.

Lemma lower_end (s : string) : ends_with_hyphen (lower s) = ends_with_hyphen s.
Proof.
  induction s as [| c s IH]; cbn; [reflexivity |].
  destruct s as [| c' s]; cbn in *; [apply is_hyphen_lower_char | exact IH].
Qed.

Lemma sanitize_title_hyphens (title : string) :
  starts_with_hyphen (sanitize_title title) = false
  /\ ends_with_hyphen (sanitize_title title) = false
  /\ adjacent_hyphens false (sanitize_title title) = false.
Proof.
  unfold sanitize_title, strip_hyphens. cbv zeta.
  rewrite lower_start, lower_end, lower_adjacent_hyphens.
  split; [apply rstrip_hyphens_start, lstrip_hyphens_start |].
  split; [apply rstrip_hyphens_end |].
  apply rstrip_hyphens_no_adjacent, lstrip_hyphens_no_adjacent.
  apply collapse_separators_no_adjacent. discriminate.
Qed.

(** X13.  For a title of ASCII characters, the sanitized title neither
    begins nor ends with a hyphen and never holds two hyphens side by side,
    so the double hyphen that [build_output_filename] puts after the time
    stamp cannot occur again inside the title. *)
Theorem sanitize_title_hyphen_discipline (title : string) :
  ascii_only title = true ->
  starts_with_hyphen (sanitize_title title) = false
  /\ ends_with_hyphen (sanitize_title title) = false
  /\ adjacent_hyphens false (sanitize_title title) = false.
Proof.
  intros _. apply sanitize_title_hyphens.
Qed.

Lemma sanitize_title_hyphen_discipline_witness :
  adjacent_hyphens false (sanitize_title "-- a  --  b --") = false.
Proof.
  apply (sanitize_title_hyphen_discipline "-- a  --  b --"). reflexivity.
Defined.

(** A string that is already clean is left as it is. *)
Lemma remove_unsafe_clean (s : string) :
  string_forall is_filename_safe s = true -> remove_unsafe s = s.
Proof.
  induction s as [| c s IH]; cbn; [reflexivity |].
  rewrite andb_true_iff. intros [Hc Hs].
  assert (Hkeep : is_word_char c || is_whitespace_char c || is_hyphen c = true).
  { revert Hc. destruct c as [[] [] [] [] [] [] [] []]; vm_compute; intros H;
      first [reflexivity | discriminate H]. }
  rewrite Hkeep, (IH Hs). reflexivity.
Qed.

Lemma safe_separator_is_hyphen (c : ascii) :
  is_filename_safe c = true ->
  is_hyphen c || is_whitespace_char c = true ->
  c = "-"%char.
Proof.
  destruct c as [[] [] [] [] [] [] [] []]; vm_compute; intros H1 H2;
    first [reflexivity | discriminate H1 | discriminate H2].
Qed.

Lemma collapse_separators_clean (s : string) (previous : bool) :
  string_forall is_filename_safe s = true ->
  adjacent_hyphens previous s = false ->
  collapse_separators previous s = s.
Proof.
  revert previous. induction s as [| c s IH]; intros previous; cbn; [reflexivity |].
  rewrite andb_true_iff, orb_false_iff. intros [Hc Hs] [Hadj Hrest].
  destruct (is_hyphen c || is_whitespace_char c) eqn:Hsep.
  - pose proof (safe_separator_is_hyphen c Hc Hsep) as ->.
    cbn in Hadj, Hrest. rewrite andb_true_r in Hadj. subst previous.
    rewrite (IH true Hs Hrest). reflexivity.
  - apply orb_false_iff in Hsep. destruct Hsep as [Hh _]. rewrite Hh in Hrest.
    rewrite (IH false Hs Hrest). reflexivity.
Qed.

Lemma lstrip_hyphens_clean (s : string) :
  starts_with_hyphen s = false -> lstrip_hyphens s = s.
Proof. destruct s as [| c s]; cbn; [reflexivity |]. intros ->. reflexivity. Qed.

Lemma rstrip_hyphens_clean (s : string) :
  ends_with_hyphen s = false -> rstrip_hyphens s = s.
Proof.
  induction s as [| c s IH]; cbn; [reflexivity |].
  destruct s as [| c' s].
  - cbn. intros ->. reflexivity.
  - intros Hend. rewrite (IH Hend). reflexivity.
Qed.

Lemma lower_char_clean (c : ascii) : is_filename_safe c = true -> lower_char c = c.
Proof.
  destruct c as [[] [] [] [] [] [] [] []]; vm_compute; intros H;
    first [reflexivity | discriminate H].
Qed.

Lemma lower_clean (s : string) : string_forall is_filename_safe s = true -> lower s = s.
Proof.
  induction s as [| c s IH]; cbn; [reflexivity |].
  rewrite andb_true_iff. intros [Hc Hs].
  rewrite (lower_char_clean c Hc), (IH Hs). reflexivity.
Qed.

(** X14.  Sanitizing is idempotent on ASCII titles: a title that has been
    sanitized is not changed by being sanitized again. *)
Theorem sanitize_title_idempotent (title : string) :
  ascii_only title = true ->
  sanitize_title (sanitize_title title) = sanitize_title title.
Proof.
  intros _.
  pose proof (sanitize_title_safe title) as Hsafe.
  destruct (sanitize_title_hyphens title) as (Hstart & Hend & Hadj).
  set (t := sanitize_title title) in *.
  unfold sanitize_title, strip_hyphens. cbv zeta.
  rewrite (remove_unsafe_clean t Hsafe).
  rewrite (collapse_separators_clean t false Hsafe Hadj).
  rewrite (lstrip_hyphens_clean t Hstart), (rstrip_hyphens_clean t Hend).
  apply lower_clean. exact Hsafe.
Qed.

Lemma sanitize_title_idempotent_witness :
  sanitize_title (sanitize_title "My Talk: Part 1") = sanitize_title "My Talk: Part 1".
Proof.
  apply (sanitize_title_idempotent "My Talk: Part 1"). reflexivity.
Defined.

(** X15.  Whatever the title (ASCII, or none at all), the file name is the
    time stamp, then characters that are all lower-case letters, digits,
    underscores or hyphens, then ".mp3": nothing of the title can add a
    directory or change the extension.  Without a title, or with one that
    sanitizes to nothing, the name is the time stamp and ".mp3" alone. *)
Theorem build_output_filename_shape (timestamp : string) (title : option string) :
  match title with
  | Some t => ascii_only t = true
  | None => True
  end ->
  exists middle,
    build_output_filename timestamp title = (timestamp ++ middle ++ ".mp3")%string
    /\ string_forall is_filename_safe middle = true
    /\ (match title with
        | Some t => sanitize_title t = EmptyString
        | None => True
        end -> middle = EmptyString).
Proof.
  intros _. unfold build_output_filename.
  destruct title as [t |]; [| exists EmptyString; repeat split].
  destruct (nonempty t) eqn:Ht.
  - destruct (nonempty (sanitize_title t)) eqn:Hs.
    + exists ("--" ++ sanitize_title t)%string.
      split; [reflexivity |]. split.
      * cbn. apply sanitize_title_safe.
      * intros Hempty. rewrite Hempty in Hs. discriminate.
    + exists EmptyString. repeat split.
  - exists EmptyString. repeat split.
Qed.

Lemma build_output_filename_shape_witness :
  exists middle,
    build_output_filename "20240101-120000" (Some "../etc/Passwd")
    = ("20240101-120000" ++ middle ++ ".mp3")%string
    /\ string_forall is_filename_safe middle = true.
Proof.
  destruct (build_output_filename_shape "20240101-120000" (Some "../etc/Passwd") eq_refl)
    as (middle & Hname & Hsafe & _).
  exists middle. split; assumption.
Defined.

(** * Further properties of detect.py *)

(** ** Finding the capture binary *)

Lemma first_usable_spec (fs : FileSystem) (l : list Path) :
  match first_usable fs l with
  | Some p =>
      exists before after,
        l = before ++ p :: after
        /\ usable fs p = true
        /\ forallb (fun q => negb (usable fs q)) before = true
  | None => forallb (fun q => negb (usable fs q)) l = true
  end.
Proof.
  induction l as [| q l IH]; cbn; [reflexivity |].
  destruct (usable fs q) eqn:Hq.
  - exists [], l. repeat split. exact Hq.
  - destruct (first_usable fs l) as [p |].
    + destruct IH as (before & after & Hl & Hp & Hbefore).
      exists (q :: before), after. rewrite Hl. cbn. rewrite Hq, Hbefore.
      repeat split. exact Hp.
    + cbn. exact IH.
Qed.

(** X16.  Whatever [find_system_audio_dump] returns exists, is a regular
    file and carries an execute bit; with a custom path the result is that
    path and no other, without one it is one of the three places searched.
    A [BinaryNotFoundError] means what it says: with a custom path, that
    path fails one of the three checks; without one, none of the three
    places holds a usable binary. *)
Theorem find_system_audio_dump_result (fs : FileSystem) (custom_path : option Path) :
  match find_system_audio_dump fs custom_path with
  | Returned p =>
      fs_exists fs p = true /\ fs_is_file fs p = true /\ _is_executable fs p = true
      /\ match custom_path with
         | Some q => p = q
         | None => In p candidates
         end
  | Raised (BinaryNotFoundError _) =>
      match custom_path with
      | Some q => usable fs q = false
      | None => forallb (fun q => negb (usable fs q)) candidates = true
      end
  | Raised _ => True
  end.
Proof.
  unfold find_system_audio_dump. destruct custom_path as [q |].
  - unfold usable.
    destruct (fs_exists fs q) eqn:He; cbn [negb andb]; [| reflexivity].
    destruct (fs_is_file fs q) eqn:Hf; cbn [negb orb andb]; [| reflexivity].
    destruct (_is_executable fs q) eqn:Hx; cbn [negb]; [| reflexivity].
    repeat split; first [assumption | reflexivity].
  - pose proof (first_usable_spec fs candidates) as Hspec.
    destruct (first_usable fs candidates) as [p |]; [| exact Hspec].
    destruct Hspec as (before & after & Hl & Hp & _).
    unfold usable in Hp. rewrite !andb_true_iff in Hp. destruct Hp as [[He Hf] Hx].
    repeat split; try assumption.
    rewrite Hl. apply in_or_app. right. left. reflexivity.
Qed.

(** X17.  Without a custom path the places are tried in their order and the
    first usable one wins: the result is [p] exactly when [p] is usable and
    every place listed before it is not.  With a custom path there is no
    falling back: an unusable custom path is an error even when one of the
    places searched holds a usable binary. *)
Theorem find_system_audio_dump_search_order (fs : FileSystem) (p : Path) :
  (find_system_audio_dump fs None = Returned p <->
   exists before after,
     candidates = before ++ p :: after
     /\ usable fs p = true
     /\ forallb (fun q => negb (usable fs q)) before = true)
  /\ (usable fs p = false ->
      exists msg, find_system_audio_dump fs (Some p) = Raised (BinaryNotFoundError msg)).
Proof.
  split.
  - unfold find_system_audio_dump.
    pose proof (first_usable_spec fs candidates) as Hspec.
    destruct (first_usable fs candidates) as [p' |] eqn:Hfirst.
    + split.
      * intros Heq. injection Heq as <-. exact Hspec.
      * intros (before & after & Hl & Hp & Hbefore). f_equal.
        revert Hfirst. rewrite Hl. clear Hl Hspec.
        induction before as [| q before IH]; cbn.
        { rewrite Hp. intros Heq. injection Heq as ->. reflexivity. }
        { cbn in Hbefore. apply andb_true_iff in Hbefore. destruct Hbefore as [Hq Hrest].
          apply negb_true_iff in Hq. rewrite Hq. apply IH. exact Hrest. }
    + split; [discriminate |].
      intros (before & after & Hl & Hp & _). exfalso.
      rewrite Hl, forallb_app in Hspec. apply andb_true_iff in Hspec.
      destruct Hspec as [_ Hrest]. cbn in Hrest. rewrite Hp in Hrest. discriminate.
  - intros Hunusable. unfold find_system_audio_dump, usable in *.
    destruct (fs_exists fs p); cbn [negb]; [| eexists; reflexivity].
    destruct (fs_is_file fs p); cbn [negb orb]; [| eexists; reflexivity].
    cbn [andb] in Hunusable. rewrite Hunusable. eexists. reflexivity.
Qed.

Lemma find_system_audio_dump_search_order_witness :
  find_system_audio_dump sample_fs None = Returned ".build/release/SystemAudioDump"
  /\ exists msg,
       find_system_audio_dump sample_fs (Some "tools") = Raised (BinaryNotFoundError msg).
Proof.
  destruct (find_system_audio_dump_search_order sample_fs ".build/release/SystemAudioDump")
    as [[_ Hfound] _].
  destruct (find_system_audio_dump_search_order sample_fs "tools") as [_ Hcustom].
  split.
  - apply Hfound. exists ["SystemAudioDump"%string].
    exists ["externals/systemAudioDump/.build/release/SystemAudioDump"%string].
    repeat split.
  - apply Hcustom. reflexivity.
Defined.

(** ** Finding the encoder *)

(** X18.  [find_ffmpeg] treats an empty custom path as no custom path.  A
    custom path that is not empty is accepted as soon as it exists and has
    an execute bit, without asking whether it is a regular file: a directory
    that [find_ffmpeg] returns is refused by [find_system_audio_dump]. *)
Theorem find_ffmpeg_checks_less (fs : FileSystem) (s : string) :
  find_ffmpeg fs (Some EmptyString) = find_ffmpeg fs None
  /\ (nonempty s = true ->
      fs_exists fs (fs_Path fs s) = true ->
      _is_executable fs (fs_Path fs s) = true ->
      find_ffmpeg fs (Some s) = Returned (fs_Path fs s)
      /\ (fs_is_file fs (fs_Path fs s) = false ->
          find_system_audio_dump fs (Some (fs_Path fs s))
          = Raised (BinaryNotFoundError
                      ("SystemAudioDump is not executable: " ++ str_path (fs_Path fs s))%string))).
Proof.
  split; [reflexivity |].
  intros Hs He Hx. unfold find_ffmpeg, find_system_audio_dump, truthy.
  rewrite Hs. cbv zeta. rewrite He, Hx. cbn [negb].
  split; [reflexivity |]. intros Hf. rewrite Hf. reflexivity.
Qed.

Lemma find_ffmpeg_checks_less_witness :
  find_ffmpeg sample_fs (Some "tools") = Returned "tools"
  /\ find_system_audio_dump sample_fs (Some "tools")
     = Raised (BinaryNotFoundError "SystemAudioDump is not executable: tools").
Proof.
  destruct (find_ffmpeg_checks_less sample_fs "tools") as [_ Hdir].
  destruct (Hdir eq_refl eq_refl eq_refl) as [Hffmpeg Hdump].
  split; [exact Hffmpeg | exact (Hdump eq_refl)].
Defined.

(** ** The version check *)

Lemma next_or_first {A} (test : A -> bool) (l : list A) (default : A) :
  (exists before after,
     l = before ++ next_or test l default :: after
     /\ test (next_or test l default) = true
     /\ forallb (fun x => negb (test x)) before = true)
  \/ (next_or test l default = default /\ forallb (fun x => negb (test x)) l = true).
Proof.
  induction l as [| x l IH]; cbn; [right; split; reflexivity |].
  destruct (test x) eqn:Hx.
  - left. exists [], l. repeat split. exact Hx.
  - destruct IH as [(before & after & Hl & Htest & Hbefore) | [Hdef Hall]].
    + left. exists (x :: before), after. cbn. rewrite Hx, Hbefore, <- Hl.
      repeat split. exact Htest.
    + right. split; [exact Hdef | exact Hall].
Qed.

(** X19.  [check_ffmpeg_version] returns only when the encoder ran with exit
    code 0 and its output names libmp3lame; what it returns is then the
    first line of that output that begins with "ffmpeg version", or the
    empty string when no line begins so.  When it raises, the error is one
    of five: a timeout of the run and a missing file, each turned into a
    [BinaryNotFoundError] that quotes the error of the run; an exit code
    other than 0, turned into one that quotes the error stream; a missing
    codec, turned into one with the fixed advice; or any other error of the
    run, passed on as it is. *)
Theorem check_ffmpeg_version_result (run : Runner) (ffmpeg_path : Path) :
  let ran := run [str_path ffmpeg_path; "-version"] 10 in
  match check_ffmpeg_version run ffmpeg_path with
  | Returned version_line =>
      exists result,
        ran = Returned result
        /\ cp_returncode result = 0
        /\ contains "libmp3lame" (cp_stdout result) = true
        /\ ((exists before after,
               split_lines (cp_stdout result) = before ++ version_line :: after
               /\ String.prefix "ffmpeg version" version_line = true
               /\ forallb (fun line => negb (String.prefix "ffmpeg version" line))
                    before = true)
            \/ (version_line = EmptyString
                /\ forallb (fun line => negb (String.prefix "ffmpeg version" line))
                     (split_lines (cp_stdout result)) = true))
  | Raised e =>
      (exists m,
         ran = Raised (RunTimeoutExpired m)
         /\ e = BinaryNotFoundError ("ffmpeg version check timed out: " ++ m)%string)
      \/ (exists m,
            ran = Raised (FileNotFoundError m)
            /\ e = BinaryNotFoundError ("ffmpeg not found: " ++ m)%string)
      \/ (exists result,
            ran = Returned result
            /\ cp_returncode result <> 0
            /\ e = BinaryNotFoundError ("ffmpeg failed to run: " ++ cp_stderr result)%string)
      \/ (exists result,
            ran = Returned result
            /\ cp_returncode result = 0
            /\ contains "libmp3lame" (cp_stdout result) = false
            /\ e = BinaryNotFoundError
                     "ffmpeg found but libmp3lame codec not available. Install ffmpeg with: brew install ffmpeg")
      \/ (ran = Raised e
          /\ (exists m, e = BinaryNotFoundError m \/ e = OSError m))
  end.
Proof.
  cbv zeta. unfold check_ffmpeg_version.
  destruct (run [str_path ffmpeg_path; "-version"] 10) as [result | [m | m | m | m]].
  - destruct (cp_returncode result =? 0) eqn:Hcode; cbn [negb].
    + apply Z.eqb_eq in Hcode.
      destruct (contains "libmp3lame" (cp_stdout result)) eqn:Hcodec; cbn [negb].
      * exists result. split; [reflexivity |]. split; [exact Hcode |].
        split; [exact Hcodec |]. apply next_or_first.
      * right. right. right. left. exists result. auto.
    + apply Z.eqb_neq in Hcode. right. right. left. exists result. auto.
  - right. right. right. right. split; [reflexivity |]. exists m. left. reflexivity.
  - left. exists m. auto.
  - right. left. exists m. auto.
  - right. right. right. right. split; [reflexivity |]. exists m. right. reflexivity.
Qed.

(** ** The permission probe *)

Lemma lower_app (a b : string) : lower (a ++ b) = (lower a ++ lower b)%string.
Proof. induction a as [| c a IH]; cbn; [reflexivity | rewrite IH; reflexivity]. Qed.

Lemma prefix_app (n b : string) : String.prefix n (n ++ b) = true.
Proof.
  induction n as [| c n IH]; cbn; [destruct b; reflexivity |].
  destruct (ascii_dec c c) as [_ | Hneq]; [exact IH | contradiction].
Qed.

Lemma contains_app (n a b : string) : contains n (a ++ n ++ b) = true.
Proof.
  induction a as [| c a IH].
  - cbn [append]. destruct (n ++ b)%string eqn:Hnb; cbn [contains];
      rewrite <- Hnb, prefix_app; reflexivity.
  - cbn [append contains]. rewrite IH. apply orb_true_r.
Qed.

(** X20.  The probe reports a permission problem whenever the capture binary
    does not finish within its 3 seconds or cannot be found, and whenever
    one of the six indicators occurs in what it wrote (in ASCII) to either
    stream, in any mix of upper and lower case.  An error of the run other than these
    two is passed on. *)
Theorem detect_permission_issue_triggers (run : Runner) (dump_path : Path) :
  (forall m, run [str_path dump_path] 3 = Raised (RunTimeoutExpired m) ->
             detect_permission_issue run dump_path = Returned true)
  /\ (forall m, run [str_path dump_path] 3 = Raised (FileNotFoundError m) ->
                detect_permission_issue run dump_path = Returned true)
  /\ (forall m, run [str_path dump_path] 3 = Raised (OSError m) ->
                detect_permission_issue run dump_path = Raised (OSError m))
  /\ (forall result indicator before word after,
        run [str_path dump_path] 3 = Returned result ->
        ascii_only (cp_stderr result) = true ->
        ascii_only (cp_stdout result) = true ->
        In indicator permission_indicators ->
        lower word = indicator ->
        cp_stderr result = (before ++ word ++ after)%string
        \/ cp_stdout result = (before ++ word ++ after)%string ->
        detect_permission_issue run dump_path = Returned true).
Proof.
  unfold detect_permission_issue.
  split; [intros m ->; reflexivity |].
  split; [intros m ->; reflexivity |].
  split; [intros m ->; reflexivity |].
  intros result indicator before word after -> _ _ Hin Hword Hwhere. cbv zeta.
  f_equal. apply existsb_exists. exists indicator. split; [exact Hin |].
  apply orb_true_iff.
  destruct Hwhere as [-> | ->]; [left | right];
    rewrite !lower_app, Hword; apply contains_app.
Qed.

Lemma detect_permission_issue_triggers_witness :
  detect_permission_issue hanging_runner "SystemAudioDump" = Returned true
  /\ detect_permission_issue sample_runner "SystemAudioDump" = Returned true.
Proof.
  destruct (detect_permission_issue_triggers hanging_runner "SystemAudioDump")
    as (Htimeout & _).
  destruct (detect_permission_issue_triggers sample_runner "SystemAudioDump")
    as (_ & _ & _ & Hword).
  split.
  - apply (Htimeout "timed out after 3 seconds"%string). reflexivity.
  - eapply (Hword _ "permission"%string "Screen Recording "%string "PERMISSION"%string
              " is required"%string).
    + reflexivity.
    + reflexivity.
    + reflexivity.
    + right. left. reflexivity.
    + reflexivity.
    + left. reflexivity.
Defined.
